(** * The React frontends of the Nissan ML Platform and the EV Battery Predictor

    A shallow embedding of the client-side logic of the two single-page
    applications: the browser-local token store, the interceptors of the
    shared axios clients, the authentication contexts, the list views with
    their confirmed deletions, the custom-prediction form, the dashboard
    counters and the training-status polling loops with the browser timers
    they run on.

    Conventions.  A JavaScript value that may be [null] or [undefined] is an
    [option]; a promise that may reject is a sum [axios_error + A]; React
    state is a record and a handler is a function from the record of the
    render it was created in to the next record; a closure is the data it
    captured.  Wall-clock time is a [Z] of milliseconds. *)

From stdpp Require Import gmap strings list sorting.
From Stdlib Require Import ZArith QArith Lia.

Local Open Scope string_scope.
Local Open Scope Z_scope.

(** ** JavaScript primitives *)

Module Js.

(** [ToBoolean] on a string or [null], as in [if (token)] and [!!x]:
    [null] and the empty string are falsy, every other string is truthy. *)
Definition truthy (v : option string) : bool :=
  match v with
  | None => false
  | Some EmptyString => false
  | Some (String _ _) => true
  end.

(** [a < b] and [a <= b], [a > b] on finite numbers, which JSON numbers
    are. *)
Definition lt (a b : Q) : bool := Qnum a * QDen b <? Qnum b * QDen a.
Definition le (a b : Q) : bool := Qnum a * QDen b <=? Qnum b * QDen a.
Definition gt (a b : Q) : bool := lt b a.

(** [undefined < b] is [false]: [undefined] converts to [NaN]. *)
Definition lt_undef (a : option Q) (b : Q) : bool :=
  match a with Some x => lt x b | None => false end.

(** [ToNumber] on a JSON number or [null]: [null] converts to [+0]. *)
Definition toNumber (v : option Q) : Q :=
  match v with Some x => x | None => 0%Q end.

End Js.

(** ** The browser: [localStorage] and [window.location] *)

Module Browser.

Record browser := Mk {
  localStorage : gmap string string;
  href : string
}.

Definition getItem (k : string) (b : browser) : option string :=
  localStorage b !! k.

Definition setItem (k v : string) (b : browser) : browser :=
  {| localStorage := <[k := v]> (localStorage b); href := href b |}.

Definition removeItem (k : string) (b : browser) : browser :=
  {| localStorage := delete k (localStorage b); href := href b |}.

Definition navigate (to : string) (b : browser) : browser :=
  {| localStorage := localStorage b; href := to |}.

End Browser.
Import Browser.

(** ** The shared axios clients (services/api.js of both frontends) *)

Module Axios.

(** A request configuration after axios merged the client defaults with
    the per-call options. *)
Record config := Config {
  method : string;
  url : string;
  headers : gmap string string;
  isFormData : bool
}.

(** A rejected request: [error.response] is absent on a network failure
    and carries the HTTP status otherwise. *)
Record axios_error := AxiosError {
  response_status : option Z;
  detail : option string;
  message : string
}.

Definition promise (A : Type) : Type := axios_error + A.

Definition set_header (k v : string) (cfg : config) : config :=
  {| method := method cfg; url := url cfg;
     headers := <[k := v]> (headers cfg); isFormData := isFormData cfg |}.

Definition delete_header (k : string) (cfg : config) : config :=
  {| method := method cfg; url := url cfg;
     headers := delete k (headers cfg); isFormData := isFormData cfg |}.

(** The defaults of [axios.create]: only a Content-Type. *)
Definition default_headers : gmap string string :=
  {[ "Content-Type" := "application/json" ]}.

(** Every call site of the service modules passes at most a Content-Type
    of its own ([uploadFile], [uploadBatteryData]); axios lets the
    per-call header win over the default. *)
Definition mkConfig (m u : string) (contentType : option string)
    (form : bool) : config :=
  {| method := m; url := u;
     headers := match contentType with
                | Some ct => <["Content-Type" := ct]> default_headers
                | None => default_headers
                end;
     isFormData := form |}.

(** nissan-ml-platform: [apiClient.interceptors.request.use]. *)
Definition nissan_request_interceptor (b : browser) (cfg : config) : config :=
  let token := getItem "token" b in
  if Js.truthy token
  then set_header "Authorization" ("Bearer " +:+ default EmptyString token) cfg
  else cfg.

(** ev-battery-predictor: [api.interceptors.request.use]. *)
Definition ev_request_interceptor (b : browser) (cfg : config) : config :=
  let token := getItem "token" b in
  let cfg :=
    if Js.truthy token
    then set_header "Authorization" ("Bearer " +:+ default EmptyString token) cfg
    else cfg in
  if isFormData cfg then delete_header "Content-Type" cfg else cfg.

(** nissan-ml-platform: the rejection handler of
    [apiClient.interceptors.response.use].  On status 401 the token is
    dropped and the page goes to /login; the error is rejected again in
    every case. *)
Definition nissan_response_interceptor {A} (err : axios_error) (b : browser)
    : promise A * browser :=
  let is401 :=
    match response_status err with
    | Some st => st =? 401
    | None => false
    end in
  let b := if is401 then navigate "/login" (removeItem "token" b) else b in
  (inl err, b).

(** ev-battery-predictor: the rejection handler of
    [api.interceptors.response.use]; [error.response?.status] is
    [undefined] without a response, and [undefined === 401] is false. *)
Definition ev_response_interceptor {A} (err : axios_error) (b : browser)
    : promise A * browser :=
  match response_status err with
  | Some 401 => (inl err, navigate "/login" (removeItem "token" b))
  | _ => (inl err, b)
  end.

(** One round trip through a client: the request interceptor shapes what
    is sent, the network answers with [reply] (axios rejects every status
    outside 2xx), the response interceptors run on the answer; the
    fulfilment handler [(response) => response] is the identity. *)
Definition round_trip {A} (reqi : browser -> config -> config)
    (resi : axios_error -> browser -> promise A * browser)
    (cfg : config) (reply : promise A) (b : browser)
    : promise A * browser * config :=
  let sent := reqi b cfg in
  match reply with
  | inr r => (inr r, b, sent)
  | inl err => (resi err b, sent)
  end.

Definition apiClient {A} :=
  @round_trip A nissan_request_interceptor nissan_response_interceptor.
Definition api {A} :=
  @round_trip A ev_request_interceptor ev_response_interceptor.

(** [err.response?.data?.detail || err.message]. *)
Definition detail_or (err : axios_error) (fallback : string) : string :=
  if Js.truthy (detail err) then default EmptyString (detail err) else fallback.

End Axios.
Import Axios.

(** The body of a successful POST /auth/login. *)
Record token_response := TokenResponse { access_token : string }.

(** What [jwtDecode] returns: the payload, of which only [exp] is read; a
    payload without the claim has [exp = undefined]. *)
Record jwt_payload := JwtPayload { exp : option Q }.

(** ** nissan-ml-platform: authService and AuthContext *)

Module Nissan.

Module authService.
Section authService.
Context {User : Type}.

(** [login] posts with the bare [axios], not with [apiClient]: no
    interceptor runs. *)
Definition login (reply : promise token_response) (b : browser)
    : promise token_response * browser :=
  match reply with
  | inr data => (inr data, setItem "token" (access_token data) b)
  | inl err => (inl err, b)
  end.

Definition logout (b : browser) : browser := removeItem "token" b.

Definition getCurrentUser (reply : promise User) (b : browser)
    : promise User * browser * config :=
  apiClient (mkConfig "GET" "/auth/me" None false) reply b.

Definition isAuthenticated (b : browser) : bool :=
  Js.truthy (getItem "token" b).
End authService.
End authService.

Module AuthContext.
Section AuthContext.
Context {User : Type}.
Variable jwtDecode : string -> option jwt_payload.

Record state := State {
  currentUser : option User;
  loading : bool;
  error : option string
}.

Definition initial : state :=
  {| currentUser := None; loading := true; error := None |}.

Definition setCurrentUser (u : option User) (s : state) : state :=
  {| currentUser := u; loading := loading s; error := error s |}.
Definition setLoading (l : bool) (s : state) : state :=
  {| currentUser := currentUser s; loading := l; error := error s |}.
Definition setError (e : option string) (s : state) : state :=
  {| currentUser := currentUser s; loading := loading s; error := e |}.

(** [Date.now() / 1000]. *)
Definition currentTime (now_ms : Z) : Q := now_ms # 1000.

(** [initAuth], run once on mount.  The third component lists the
    requests it sent.  [jwtDecode] throws on a malformed token
    ([None]); a rejected [getCurrentUser] is thrown inside the inner
    [try] and lands in the same [catch]. *)
Definition initAuth (now_ms : Z) (me : promise User)
    (b : browser) (s : state) : state * browser * list config :=
  let token := getItem "token" b in
  let '(s, b, sent) :=
    if Js.truthy token then
      match jwtDecode (default EmptyString token) with
      | Some decodedToken =>
          if Js.lt_undef (exp decodedToken) (currentTime now_ms) then
            (setCurrentUser None s, removeItem "token" b, [])
          else
            match authService.getCurrentUser me b with
            | (inr userData, b, req) =>
                (setCurrentUser (Some userData) s, b, [req])
            | (inl _, b, req) =>
                (setCurrentUser None s, removeItem "token" b, [req])
            end
      | None => (setCurrentUser None s, removeItem "token" b, [])
      end
    else (s, b, []) in
  (setLoading false s, b, sent).

Definition login (token : promise token_response) (me : promise User)
    (b : browser) (s : state) : promise User * state * browser :=
  let s := setError None (setLoading true s) in
  match authService.login token b with
  | (inr _, b) =>
      match authService.getCurrentUser me b with
      | (inr userData, b, _) =>
          (inr userData, setLoading false (setCurrentUser (Some userData) s), b)
      | (inl err, b, _) =>
          (inl err,
           setLoading false (setError (Some (detail_or err (message err))) s), b)
      end
  | (inl err, b) =>
      (inl err,
       setLoading false (setError (Some (detail_or err (message err))) s), b)
  end.

Definition logout (b : browser) (s : state) : state * browser :=
  (setCurrentUser None s, authService.logout b).

Definition isAuthenticated (s : state) : bool :=
  match currentUser s with Some _ => true | None => false end.
End AuthContext.
End AuthContext.

End Nissan.

(** ** ev-battery-predictor: AuthContext *)

Module Ev.

Module authAPI.
Section authAPI.
Context {User : Type}.
Definition login (reply : promise token_response) (b : browser) :=
  api (mkConfig "POST" "/auth/login" None true) reply b.
Definition getProfile (reply : promise User) (b : browser) :=
  api (mkConfig "GET" "/auth/me" None false) reply b.
End authAPI.
End authAPI.

Module AuthContext.
Section AuthContext.
Context {User : Type}.

Record state := State {
  user : option User;
  loading : bool;
  isAuthenticated : bool
}.

Definition initial : state :=
  {| user := None; loading := true; isAuthenticated := false |}.

(** The mount effect of [AuthProvider]: with a token in the store the
    profile is requested at once; there is no decoding of the token. *)
Definition init (profile : promise User) (b : browser) (s : state)
    : state * browser * list config :=
  let token := getItem "token" b in
  if Js.truthy token then
    match authAPI.getProfile profile b with
    | (inr data, b, req) =>
        ({| user := Some data; loading := false; isAuthenticated := true |},
         b, [req])
    | (inl _, b, req) =>
        ({| user := user s; loading := false;
            isAuthenticated := isAuthenticated s |},
         removeItem "token" b, [req])
    end
  else
    ({| user := user s; loading := false;
        isAuthenticated := isAuthenticated s |}, b, []).

(** [handleApiSuccess()] is [inr tt], [handleApiError(error, 'Login
    failed')] is [inl] of the formatted message. *)
Definition login (token : promise token_response) (profile : promise User)
    (b : browser) (s : state) : (string + unit) * state * browser :=
  match authAPI.login token b with
  | (inr data, b, _) =>
      let b := setItem "token" (access_token data) b in
      match authAPI.getProfile profile b with
      | (inr p, b, _) =>
          (inr tt,
           {| user := Some p; loading := loading s; isAuthenticated := true |},
           b)
      | (inl err, b, _) => (inl (detail_or err "Login failed"), s, b)
      end
  | (inl err, b, _) => (inl (detail_or err "Login failed"), s, b)
  end.

Definition logout (b : browser) (s : state) : state * browser :=
  ({| user := None; loading := loading s; isAuthenticated := false |},
   removeItem "token" b).
End AuthContext.
End AuthContext.

End Ev.

(** ** Browser timers: [setInterval], [setTimeout], [clearInterval]

    The timers of one page, with nominal firing times: a timer registered
    at time [now] with delay [d] is due at [now + d]; an interval is armed
    again [d] after each firing until it is cleared.  Handles come from one
    counter, and clearing an unknown handle does nothing.  Each callback
    runs to completion before the next timer fires, and a request it
    awaits is taken to be answered within the same turn. *)

Module Timers.
Section Timers.
Context {C : Type}.

Record timer := Timer {
  handle : nat;
  due : Z;
  period : option Z;
  callback : C
}.

Record clock := Clock {
  now : Z;
  next_handle : nat;
  pending : list timer
}.

(** The callback of an interval may name its own handle, as in
    [const h = setInterval(() => ... clearInterval(h) ..., d)]. *)
Definition setInterval (cb : nat -> C) (delay : Z) (k : clock) : nat * clock :=
  let h := next_handle k in
  (h, {| now := now k; next_handle := S h;
         pending := pending k ++
           [{| handle := h; due := now k + delay;
               period := Some delay; callback := cb h |}] |}).

Definition setTimeout (cb : C) (delay : Z) (k : clock) : nat * clock :=
  let h := next_handle k in
  (h, {| now := now k; next_handle := S h;
         pending := pending k ++
           [{| handle := h; due := now k + delay;
               period := None; callback := cb |}] |}).

Definition clearInterval (h : nat) (k : clock) : clock :=
  {| now := now k; next_handle := next_handle k;
     pending := filter (fun t => handle t ≠ h) (pending k) |}.

(** The timer that fires next: the least due time, and among equal due
    times the one registered first.  (Browsers need not order two timers
    that were registered with different delays and fall due together, as
    the 60th tick and the timeout of the EV Models page do; what is
    stated below about that page holds for either order.) *)
Fixpoint earliest (l : list timer) : option timer :=
  match l with
  | [] => None
  | t :: l' =>
      match earliest l' with
      | None => Some t
      | Some t' => if due t <=? due t' then Some t else Some t'
      end
  end.

Definition rearm (t : timer) : option timer :=
  match period t with
  | Some d => Some {| handle := handle t; due := due t + d;
                      period := Some d; callback := callback t |}
  | None => None
  end.

(** After [t] fired: an interval stays in place with its next due time,
    a timeout is gone. *)
Definition after_firing (t : timer) (l : list timer) : list timer :=
  omap (fun t' => if decide (handle t' = handle t) then rearm t' else Some t') l.

Definition fire (k : clock) : option (timer * clock) :=
  match earliest (pending k) with
  | None => None
  | Some t =>
      Some (t, {| now := due t; next_handle := next_handle k;
                  pending := after_firing t (pending k) |})
  end.

(** The event loop over the React state of a page: fire the next timer
    and run its callback. *)
Context {Page : Type}.
Variable exec : C -> Page * clock -> Page * clock.

Definition step (w : Page * clock) : option (Page * clock) :=
  match fire (snd w) with
  | None => None
  | Some (t, k) => Some (exec (callback t) (fst w, k))
  end.

Fixpoint run (n : nat) (w : Page * clock) : Page * clock :=
  match n with
  | O => w
  | S n' =>
      match step w with
      | None => w
      | Some w' => run n' w'
      end
  end.

Definition polling (h : nat) (k : clock) : bool :=
  existsb (fun t => Nat.eqb (handle t) h) (pending k).

End Timers.
Arguments timer : clear implicits.
Arguments clock : clear implicits.
End Timers.
Import Timers.

(** A page that has registered no timer yet; browsers hand out handles
    from 1. *)
Definition fresh_clock {C} (t0 : Z) : clock C :=
  {| now := t0; next_handle := 1%nat; pending := [] |}.

(** ** ev-battery-predictor: pages/Models.js, training and its polling loop

    [ModelDetail.handleTrainModel] is the same handler with
    [trainingInProgress] in place of [trainingModel]. *)

Module Models.

Inductive request :=
| TrainModel (id : Z)
| GetModel (id : Z)
| GetModels (vehicleId : option Z).

Record state := State {
  trainingModel : option Z;
  selectedVehicle : option Z;
  messages : list string;
  network : list (Z * request)   (* requests sent, the latest first *)
}.

Definition setTrainingModel (m : option Z) (s : state) : state :=
  {| trainingModel := m; selectedVehicle := selectedVehicle s;
     messages := messages s; network := network s |}.
Definition notify (m : string) (s : state) : state :=
  {| trainingModel := trainingModel s; selectedVehicle := selectedVehicle s;
     messages := m :: messages s; network := network s |}.
Definition send (t : Z) (r : request) (s : state) : state :=
  {| trainingModel := trainingModel s; selectedVehicle := selectedVehicle s;
     messages := messages s; network := (t, r) :: network s |}.

(** The times at which the training status was requested, the latest
    first. *)
Definition poll_times (s : state) : list Z :=
  omap (fun e => match snd e with GetModel _ => Some (fst e) | _ => None end)
       (network s).

(** The two closures handed to the timers, with what they captured. *)
Inductive callback :=
| Poll (pollInterval : nat) (modelId : Z) (vehicle : option Z)
| StopPolling (pollInterval : nat).

Section Backend.
(** The answer to the [i]-th status request: [is_trained], or a
    rejection. *)
Variable getModel : nat -> promise bool.

Definition exec (cb : callback) (w : state * clock callback)
    : state * clock callback :=
  let '(s, k) := w in
  match cb with
  | Poll pollInterval modelId vehicle =>
      let reply := getModel (length (poll_times s)) in
      let s := send (now k) (GetModel modelId) s in
      match reply with
      | inr is_trained =>
          if is_trained : bool then
            let k := clearInterval pollInterval k in
            let s := setTrainingModel None s in
            let s := notify "Model training completed!" s in
            (send (now k) (GetModels vehicle) s, k)
          else (s, k)
      | inl _ =>
          (setTrainingModel None s, clearInterval pollInterval k)
      end
  | StopPolling pollInterval =>
      (setTrainingModel None s, clearInterval pollInterval k)
  end.

Definition handleTrainModel (modelId : Z) (train : promise unit)
    (w : state * clock callback) : state * clock callback :=
  let '(s, k) := w in
  let s := setTrainingModel (Some modelId) s in
  let s := send (now k) (TrainModel modelId) s in
  match train with
  | inr _ =>
      let s := notify "Training started! Check back in a few moments." s in
      let '(pollInterval, k) :=
        setInterval (fun h => Poll h modelId (selectedVehicle s)) 5000 k in
      let '(_, k) := setTimeout (StopPolling pollInterval) 300000 k in
      (s, k)
  | inl _ =>
      (notify "Failed to start training" (setTrainingModel None s), k)
  end.
End Backend.

Definition initial (vehicle : option Z) : state :=
  {| trainingModel := None; selectedVehicle := vehicle;
     messages := []; network := [] |}.

End Models.

(** ** nissan-ml-platform: components/ml/ModelTraining.js *)

(** What the frontend reads of a model: its id ([model_id] in the answer
    of POST /models/train, [id] elsewhere) and its [training_status]. *)
Record model_info := ModelInfo {
  model_id : Z;
  training_status : string
}.

Module ModelTraining.

Inductive request :=
| TrainModel
| GetModelById (id : Z).

Record state := State {
  index_column : string;
  target_column : string;
  training : bool;
  error : option string;
  trainingResult : option model_info;
  activeStep : nat;
  pollingInterval : option nat;
  trained : list model_info;      (* calls of [onModelTrained] *)
  network : list (Z * request)
}.

Definition setTraining (v : bool) (s : state) : state :=
  {| index_column := index_column s; target_column := target_column s;
     training := v; error := error s; trainingResult := trainingResult s;
     activeStep := activeStep s; pollingInterval := pollingInterval s;
     trained := trained s; network := network s |}.
Definition setError (v : option string) (s : state) : state :=
  {| index_column := index_column s; target_column := target_column s;
     training := training s; error := v; trainingResult := trainingResult s;
     activeStep := activeStep s; pollingInterval := pollingInterval s;
     trained := trained s; network := network s |}.
Definition setTrainingResult (v : option model_info) (s : state) : state :=
  {| index_column := index_column s; target_column := target_column s;
     training := training s; error := error s; trainingResult := v;
     activeStep := activeStep s; pollingInterval := pollingInterval s;
     trained := trained s; network := network s |}.
Definition setActiveStep (v : nat) (s : state) : state :=
  {| index_column := index_column s; target_column := target_column s;
     training := training s; error := error s; trainingResult := trainingResult s;
     activeStep := v; pollingInterval := pollingInterval s;
     trained := trained s; network := network s |}.
Definition setPollingInterval (v : option nat) (s : state) : state :=
  {| index_column := index_column s; target_column := target_column s;
     training := training s; error := error s; trainingResult := trainingResult s;
     activeStep := activeStep s; pollingInterval := v;
     trained := trained s; network := network s |}.
Definition onModelTrained (m : model_info) (s : state) : state :=
  {| index_column := index_column s; target_column := target_column s;
     training := training s; error := error s; trainingResult := trainingResult s;
     activeStep := activeStep s; pollingInterval := pollingInterval s;
     trained := m :: trained s; network := network s |}.
Definition send (t : Z) (r : request) (s : state) : state :=
  {| index_column := index_column s; target_column := target_column s;
     training := training s; error := error s; trainingResult := trainingResult s;
     activeStep := activeStep s; pollingInterval := pollingInterval s;
     trained := trained s; network := (t, r) :: network s |}.

Definition poll_times (s : state) : list Z :=
  omap (fun e => match snd e with GetModelById _ => Some (fst e) | _ => None end)
       (network s).

Inductive callback :=
| Poll (interval : nat) (model_id : Z).

Section Backend.
Variable getModelById : nat -> promise model_info.

Definition exec (cb : callback) (w : state * clock callback)
    : state * clock callback :=
  let '(s, k) := w in
  match cb with
  | Poll interval id =>
      let reply := getModelById (length (poll_times s)) in
      let s := send (now k) (GetModelById id) s in
      match reply with
      | inr modelInfo =>
          if String.eqb (training_status modelInfo) "completed"
             || String.eqb (training_status modelInfo) "failed"
          then
            let k := clearInterval interval k in
            let s := setPollingInterval None s in
            let s := setTrainingResult (Some modelInfo) s in
            let s :=
              if String.eqb (training_status modelInfo) "completed"
              then onModelTrained modelInfo s else s in
            let s :=
              if String.eqb (training_status modelInfo) "failed"
              then setError (Some "El entrenamiento del modelo falló. Por favor, intenta con diferentes parámetros.") s
              else s in
            (s, k)
          else (s, k)
      | inl _ => (s, k)      (* console.error only *)
      end
  end.

Definition handleTrainModel (train : promise model_info)
    (w : state * clock callback) : state * clock callback :=
  let '(s, k) := w in
  let s := setError None (setTraining true s) in
  if negb (Js.truthy (Some (index_column s)))
     || negb (Js.truthy (Some (target_column s)))
  then
    (setTraining false
       (setError (Some "Debes seleccionar columnas de índice y objetivo") s), k)
  else
    let s := send (now k) TrainModel s in
    match train with
    | inr result =>
        let s := setActiveStep 1 (setTrainingResult (Some result) s) in
        let '(interval, k) :=
          setInterval (fun h => Poll h (model_id result)) 3000 k in
        (setPollingInterval (Some interval) s, k)
    | inl err =>
        (setTraining false
           (setError (Some (detail_or err "Error al entrenar modelo")) s), k)
    end.

(** The cleanup returned by the mount effect.  [pollingInterval] is the
    value the effect closed over, that of the render in which the
    effect ran. *)
Definition cleanup (captured_pollingInterval : option nat)
    (w : state * clock callback) : state * clock callback :=
  match captured_pollingInterval with
  | Some (S h) => (fst w, clearInterval (S h) (snd w))
  | _ => w
  end.
End Backend.

Definition initial (index target : string) : state :=
  {| index_column := index; target_column := target; training := false;
     error := None; trainingResult := None; activeStep := 0;
     pollingInterval := None; trained := []; network := [] |}.

End ModelTraining.

(** ** nissan-ml-platform: components/ml/ModelsList.js

    [model_id] is the field [id] of a list entry. *)

Module ModelsList.

Inductive request :=
| GetModels (fileId : option Z)
| DeleteModel (id : Z).

Record state := State {
  models : list model_info;
  loading : bool;
  error : option string;
  deleteDialogOpen : bool;
  modelToDelete : option model_info;
  deleting : bool;
  network : list (Z * request)
}.

Definition initial : state :=
  {| models := []; loading := true; error := None; deleteDialogOpen := false;
     modelToDelete := None; deleting := false; network := [] |}.

Definition setModels (v : list model_info) (s : state) : state :=
  {| models := v; loading := loading s; error := error s;
     deleteDialogOpen := deleteDialogOpen s; modelToDelete := modelToDelete s;
     deleting := deleting s; network := network s |}.
Definition setLoading (v : bool) (s : state) : state :=
  {| models := models s; loading := v; error := error s;
     deleteDialogOpen := deleteDialogOpen s; modelToDelete := modelToDelete s;
     deleting := deleting s; network := network s |}.
Definition setError (v : option string) (s : state) : state :=
  {| models := models s; loading := loading s; error := v;
     deleteDialogOpen := deleteDialogOpen s; modelToDelete := modelToDelete s;
     deleting := deleting s; network := network s |}.
Definition setDeleting (v : bool) (s : state) : state :=
  {| models := models s; loading := loading s; error := error s;
     deleteDialogOpen := deleteDialogOpen s; modelToDelete := modelToDelete s;
     deleting := v; network := network s |}.
Definition send (t : Z) (r : request) (s : state) : state :=
  {| models := models s; loading := loading s; error := error s;
     deleteDialogOpen := deleteDialogOpen s; modelToDelete := modelToDelete s;
     deleting := deleting s; network := (t, r) :: network s |}.

Definition handleDeleteClick (model : model_info) (s : state) : state :=
  {| models := models s; loading := loading s; error := error s;
     deleteDialogOpen := true; modelToDelete := Some model;
     deleting := deleting s; network := network s |}.

Definition handleCloseDialog (s : state) : state :=
  {| models := models s; loading := loading s; error := error s;
     deleteDialogOpen := false; modelToDelete := None;
     deleting := deleting s; network := network s |}.

Definition refresh_times (s : state) : list Z :=
  omap (fun e => match snd e with GetModels _ => Some (fst e) | _ => None end)
       (network s).

(** [model.training_status === 'pending' || ... === 'training']. *)
Definition in_training (model : model_info) : bool :=
  String.eqb (training_status model) "pending"
  || String.eqb (training_status model) "training".

(** The interval callback, with the [models] and [fileId] of the render
    whose effect created it. *)
Inductive callback :=
| Tick (models : list model_info) (fileId : option Z).

Section Backend.
(** The answer to the [i]-th request for the list. *)
Variable getModels : nat -> promise (list model_info).

Definition loadModels (fileId : option Z) (t : Z) (s : state) : state :=
  let reply := getModels (length (refresh_times s)) in
  let s := setError None (setLoading true s) in
  let s := send t (GetModels fileId) s in
  let s :=
    match reply with
    | inr modelsData => setModels modelsData s
    | inl err => setError (Some (detail_or err "Error al cargar modelos")) s
    end in
  setLoading false s.

Definition exec (cb : callback) (w : state * clock callback)
    : state * clock callback :=
  let '(s, k) := w in
  match cb with
  | Tick models fileId =>
      let hasTrainingModels := existsb in_training models in
      if hasTrainingModels then (loadModels fileId (now k) s, k) else (s, k)
  end.

(** The effect with dependency [[fileId]]: it runs after the render
    that shows [s], so the callback closes over [models s]. *)
Definition effect (fileId : option Z) (w : state * clock callback)
    : nat * (state * clock callback) :=
  let '(s, k) := w in
  let rendered := models s in
  let s := loadModels fileId (now k) s in
  let '(interval, k) := setInterval (fun _ => Tick rendered fileId) 5000 k in
  (interval, (s, k)).

Definition cleanup (interval : nat) (w : state * clock callback)
    : state * clock callback :=
  (fst w, clearInterval interval (snd w)).

Definition mount (fileId : option Z) (t0 : Z) :=
  effect fileId (initial, fresh_clock t0).
End Backend.

Definition handleDeleteConfirm (t : Z) (reply : promise unit) (s : state)
    : state :=
  match modelToDelete s with
  | None => s
  | Some target =>
      let shown := models s in
      let s := setDeleting true s in
      let s := send t (DeleteModel (model_id target)) s in
      let s :=
        match reply with
        | inr _ =>
            setModels
              (filter (fun model => model_id model ≠ model_id target) shown) s
        | inl err => setError (Some (detail_or err "Error al eliminar modelo")) s
        end in
      handleCloseDialog (setDeleting false s)
  end.

End ModelsList.

(** ** nissan-ml-platform: components/files/FilesList.js *)

Module FilesList.

Record file := File {
  file_id : Z;
  original_filename : string;
  file_size : Z;
  is_processed : bool;
  created_at : string
}.

Inductive request :=
| GetFiles
| DeleteFile (id : Z).

Record state := State {
  files : list file;
  loading : bool;
  error : option string;
  deleteDialogOpen : bool;
  fileToDelete : option file;
  deleting : bool;
  refreshes : nat;               (* calls of [onRefreshNeeded] *)
  network : list request
}.

Definition setFiles (v : list file) (s : state) : state :=
  {| files := v; loading := loading s; error := error s;
     deleteDialogOpen := deleteDialogOpen s; fileToDelete := fileToDelete s;
     deleting := deleting s; refreshes := refreshes s; network := network s |}.
Definition setError (v : option string) (s : state) : state :=
  {| files := files s; loading := loading s; error := v;
     deleteDialogOpen := deleteDialogOpen s; fileToDelete := fileToDelete s;
     deleting := deleting s; refreshes := refreshes s; network := network s |}.
Definition setDeleting (v : bool) (s : state) : state :=
  {| files := files s; loading := loading s; error := error s;
     deleteDialogOpen := deleteDialogOpen s; fileToDelete := fileToDelete s;
     deleting := v; refreshes := refreshes s; network := network s |}.
Definition send (r : request) (s : state) : state :=
  {| files := files s; loading := loading s; error := error s;
     deleteDialogOpen := deleteDialogOpen s; fileToDelete := fileToDelete s;
     deleting := deleting s; refreshes := refreshes s;
     network := r :: network s |}.
Definition refreshNeeded (s : state) : state :=
  {| files := files s; loading := loading s; error := error s;
     deleteDialogOpen := deleteDialogOpen s; fileToDelete := fileToDelete s;
     deleting := deleting s; refreshes := S (refreshes s);
     network := network s |}.

Definition handleDeleteClick (f : file) (s : state) : state :=
  {| files := files s; loading := loading s; error := error s;
     deleteDialogOpen := true; fileToDelete := Some f;
     deleting := deleting s; refreshes := refreshes s; network := network s |}.

Definition handleCloseDialog (s : state) : state :=
  {| files := files s; loading := loading s; error := error s;
     deleteDialogOpen := false; fileToDelete := None;
     deleting := deleting s; refreshes := refreshes s; network := network s |}.

(** [onRefreshNeeded] tells whether the parent passed the callback. *)
Definition handleDeleteConfirm (onRefreshNeeded : bool)
    (reply : promise unit) (s : state) : state :=
  match fileToDelete s with
  | None => s
  | Some target =>
      let shown := files s in
      let s := setDeleting true s in
      let s := send (DeleteFile (file_id target)) s in
      let s :=
        match reply with
        | inr _ =>
            let s :=
              setFiles
                (filter (fun file => file_id file ≠ file_id target) shown) s in
            if onRefreshNeeded then refreshNeeded s else s
        | inl err => setError (Some (detail_or err "Error al eliminar archivo")) s
        end in
      handleCloseDialog (setDeleting false s)
  end.

End FilesList.

(** ** nissan-ml-platform: components/ml/ModelResults.js

    The component never computes with a number of the backend except for
    the error column of the table: numbers are kept abstract, with the
    three primitives the component applies to them. *)

Module ModelResults.
Section ModelResults.
Context {num : Type}.
Variable parseFloat : string -> option num.        (* [None] is [NaN] *)
Variable toFixed : num -> nat -> string.
Variable abs_diff : num -> num -> num.             (* [Math.abs(a - b)] *)

Record series := Series {
  indices : list num;
  actual_values : list num;
  series_predictions : list num                    (* the field [predictions] *)
}.

(** The fields the component reads from the answers of
    POST /models/{id}/predict. *)
Record prediction_data := PredictionData {
  predictions : list num;
  original : series;
  projection : series
}.

(** [mlModelService.predict(modelId, predictionData)]: the body is [{}]
    or [{indices: [...]}]. *)
Record request := Request {
  req_method : string;
  req_url : string;
  req_indices : option (list num)
}.

Definition predict (modelId : string) (body : option (list num)) : request :=
  {| req_method := "POST";
     req_url := "/models/" +:+ modelId +:+ "/predict";
     req_indices := body |}.

Record custom_prediction := Custom {
  index : num;
  prediction : option num                          (* [result.predictions[0]] *)
}.

Record state := State {
  loaded : option prediction_data;                 (* the state [predictions] *)
  predictionInput : string;
  customPrediction : option custom_prediction;
  predicting : bool;
  error : option string;
  network : list request
}.

Definition setPredicting (v : bool) (s : state) : state :=
  {| loaded := loaded s; predictionInput := predictionInput s;
     customPrediction := customPrediction s; predicting := v;
     error := error s; network := network s |}.
Definition setError (v : option string) (s : state) : state :=
  {| loaded := loaded s; predictionInput := predictionInput s;
     customPrediction := customPrediction s; predicting := predicting s;
     error := v; network := network s |}.
Definition setCustomPrediction (v : custom_prediction) (s : state) : state :=
  {| loaded := loaded s; predictionInput := predictionInput s;
     customPrediction := Some v; predicting := predicting s;
     error := error s; network := network s |}.
Definition send (r : request) (s : state) : state :=
  {| loaded := loaded s; predictionInput := predictionInput s;
     customPrediction := customPrediction s; predicting := predicting s;
     error := error s; network := r :: network s |}.

(** The backend, an external service: what it answers to a request. *)
Variable backend : request -> promise prediction_data.

Definition handlePredict (modelId : string) (s : state) : state :=
  let s := setError None (setPredicting true s) in
  match parseFloat (predictionInput s) with
  | Some x =>
      if Js.truthy (Some (predictionInput s)) then
        let req := predict modelId (Some [x]) in
        let s := send req s in
        let s :=
          match backend req with
          | inr result =>
              setCustomPrediction
                {| index := x; prediction := head (predictions result) |} s
          | inl err =>
              setError (Some (detail_or err "Error al realizar predicción")) s
          end in
        setPredicting false s
      else setPredicting false (setError (Some "Ingresa un valor numérico válido") s)
  | None => setPredicting false (setError (Some "Ingresa un valor numérico válido") s)
  end.

(** The text under "Predicción": [customPrediction.prediction.toFixed(4)],
    which throws on [undefined]. *)
Definition shown_prediction (s : state) : option string :=
  c ← customPrediction s;
  p ← prediction c;
  Some (toFixed p 4).

(** [prepareChartData().projection], the data set "Predicciones &
    Proyecciones" of the chart that is drawn. *)
Definition chart_predictions (s : state) : option (list num) :=
  p ← loaded s;
  Some (series_predictions (original p) ++ series_predictions (projection p))%list.

(** One row of "Resultados detallados": index, actual value, prediction
    and error, each formatted. *)
Definition table_row (p : prediction_data) (i : nat) (idx : num)
    : option (string * string * string * string) :=
  actual ← actual_values (original p) !! i;
  pred ← series_predictions (original p) !! i;
  Some (toFixed idx 2, toFixed actual 4, toFixed pred 4,
        toFixed (abs_diff actual pred) 4).

Definition table (s : state) : list (option (string * string * string * string)) :=
  match loaded s with
  | Some p => imap (table_row p) (indices (original p))
  | None => []
  end.

End ModelResults.
End ModelResults.

(** ** ev-battery-predictor: pages/Dashboard.js, the Quick Stats card *)

Module Dashboard.
Section Dashboard.
Variable toFixed : Q -> nat -> string.

(** A battery reading as the backend sends it; [state_of_health] is a
    number of the backend's schema (0 to 100), [None] standing for a JSON
    [null]. *)
Record reading := Reading {
  state_of_health : option Q;
  measurement_timestamp : Z
}.

Definition healthyReadings (recentData : list reading) : nat :=
  length (List.filter
            (fun d => Js.gt (Js.toNumber (state_of_health d)) 80) recentData).

Definition warningReadings (recentData : list reading) : nat :=
  length (List.filter
            (fun d => Js.le (Js.toNumber (state_of_health d)) 80) recentData).

(** [recentData[0]?.state_of_health?.toFixed(1) || 'N/A'], followed by
    the percent sign. *)
Definition latestSOH (recentData : list reading) : string :=
  match head recentData with
  | Some d =>
      match state_of_health d with
      | Some soh =>
          let v := toFixed soh 1 in
          (if Js.truthy (Some v) then v else "N/A") +:+ "%"
      | None => "N/A%"
      end
  | None => "N/A%"
  end.

(** What the card shows: the three figures, or "No data available". *)
Definition quickStats (recentData : list reading) : option (string * nat * nat) :=
  if (0 <? length recentData)%nat
  then Some (latestSOH recentData,
             healthyReadings recentData, warningReadings recentData)
  else None.

End Dashboard.
End Dashboard.

(** ** The mount effects of the two AuthProviders, side by side

    Both start from the initial state of their provider and are observed
    through the same three results: whether the user ends up
    authenticated, the browser, and the requests sent. *)

Definition nissan_init {User : Type} (jwtDecode : string -> option jwt_payload)
    (now_ms : Z) (me : promise User) (b : browser)
    : bool * browser * list config :=
  let '(s, b, sent) :=
    Nissan.AuthContext.initAuth jwtDecode now_ms me b Nissan.AuthContext.initial in
  (Nissan.AuthContext.isAuthenticated s, b, sent).

Definition ev_init {User : Type} (now_ms : Z) (profile : promise User)
    (b : browser) : bool * browser * list config :=
  let '(s, b, sent) := Ev.AuthContext.init profile b Ev.AuthContext.initial in
  (Ev.AuthContext.isAuthenticated s, b, sent).

(** The token is unusable at [now_ms]: it does not decode, or its [exp]
    claim lies before the current time in seconds. *)
Definition expired (jwtDecode : string -> option jwt_payload)
    (token : string) (now_ms : Z) : Prop :=
  jwtDecode token = None ∨
  ∃ p e, jwtDecode token = Some p ∧ exp p = Some e ∧ (e < now_ms # 1000)%Q.

(** The expiry guard as a property of a mount effect: with a token in the
    store, an unusable token is removed, the user stays unauthenticated
    and nothing is fetched; otherwise exactly the profile is fetched. *)
Definition expiry_guard {User : Type} (jwtDecode : string -> option jwt_payload)
    (init : Z -> promise User -> browser -> bool * browser * list config)
    : Prop :=
  ∀ now_ms me b token,
    getItem "token" b = Some token → token ≠ EmptyString →
    (expired jwtDecode token now_ms →
       getItem "token" (init now_ms me b).1.2 = None ∧
       (init now_ms me b).1.1 = false ∧
       (init now_ms me b).2 = []) ∧
    (¬ expired jwtDecode token now_ms →
       ∃ req, (init now_ms me b).2 = [req] ∧ url req = "/auth/me" ∧
              headers req !! "Authorization" = Some ("Bearer " +:+ token)).

(** ** The polling loops, started on a page without other timers *)

(** The nominal firing times of an interval of period [d] registered at
    [t0]: [t0 + d], [t0 + 2d], ..., [t0 + j d]. *)
Definition ticks (t0 d : Z) (j : nat) : list Z :=
  (fun i => t0 + d * Z.of_nat i) <$> seq 1 j.

(** Any two successive requests of a chronological list are [d] apart. *)
Definition successive_gaps (l : list Z) (d : Z) : Prop :=
  ∀ i a b, l !! i = Some a → l !! S i = Some b → b - a = d.

(** EV Models page: Train is clicked at [t0] and the training request is
    accepted. *)
Definition ev_started (t0 modelId : Z) (vehicle : option Z)
    : Models.state * clock Models.callback :=
  Models.handleTrainModel modelId (inr tt) (Models.initial vehicle, fresh_clock t0).

Definition ev_run (getModel : nat -> promise bool) (n : nat)
    (t0 modelId : Z) (vehicle : option Z) :=
  run (Models.exec getModel) n (ev_started t0 modelId vehicle).

(** Nissan training form: training is requested at [t0] for a form with
    both columns chosen, and the backend answers with [result]. *)
Definition nt_started (t0 : Z) (index target : string) (result : model_info)
    : ModelTraining.state * clock ModelTraining.callback :=
  ModelTraining.handleTrainModel (inr result)
    (ModelTraining.initial index target, fresh_clock t0).

Definition nt_run (getModelById : nat -> promise model_info) (n : nat)
    (t0 : Z) (index target : string) (result : model_info) :=
  run (ModelTraining.exec getModelById) n (nt_started t0 index target result).

(** Nissan models list: the effect runs at [t0] after a render that shows
    [shown]; on mount [shown] is the initial, empty list. *)
Definition ml_started (getModels : nat -> promise (list model_info))
    (t0 : Z) (fileId : option Z) (shown : list model_info)
    : nat * (ModelsList.state * clock ModelsList.callback) :=
  ModelsList.effect getModels fileId
    (ModelsList.setModels shown ModelsList.initial, fresh_clock t0).

Definition ml_run (getModels : nat -> promise (list model_info)) (n : nat)
    (t0 : Z) (fileId : option Z) (shown : list model_info) :=
  run (ModelsList.exec getModels) n (ml_started getModels t0 fileId shown).2.

(** The backend has not reported the end of the training: a status
    request is rejected or answered with a status other than the two
    final ones. *)
Definition unfinished (reply : promise model_info) : Prop :=
  match reply with
  | inl _ => True
  | inr m => training_status m ≠ "completed" ∧ training_status m ≠ "failed"
  end.

(** A loop without any cancellation: as long as the backend does not
    report a trained model the interval [h] stays armed. *)
Definition ev_never_cancelled (getModel : nat -> promise bool) : Prop :=
  (∀ i, getModel i ≠ inr true) →
  ∀ n t0 modelId vehicle,
    polling 1 (ev_run getModel n t0 modelId vehicle).2 = true.

(** ** Invariants of the running loops *)

(** What the page looks like after [n] timer events: [j] status requests
    went out, at the ticks of the interval, and either the interval and
    the timeout are armed, or only the timeout is, or nothing is. *)
Definition ev_inv (t0 modelId : Z) (vehicle : option Z) (n : nat)
    (w : Models.state * clock Models.callback) : Prop :=
  ∃ j, (j ≤ 60)%nat ∧
    rev (Models.poll_times w.1) = ticks t0 5000 j ∧
    ((j = n ∧
      pending w.2 =
        [Timer 1 (t0 + 5000 * Z.of_nat (S j)) (Some 5000)
           (Models.Poll 1 modelId vehicle);
         Timer 2 (t0 + 300000) None (Models.StopPolling 1)]) ∨
     (j = n ∧
      pending w.2 = [Timer 2 (t0 + 300000) None (Models.StopPolling 1)]) ∨
     pending w.2 = []).
(** After [n] timer events: either every answer so far was unfinished,
    [n] status requests went out and the interval is armed, or some answer
    was final and nothing is armed. *)
Definition nt_inv (getModelById : nat -> promise model_info) (t0 : Z)
    (result : model_info) (n : nat)
    (w : ModelTraining.state * clock ModelTraining.callback) : Prop :=
  ∃ j, rev (ModelTraining.poll_times w.1) = ticks t0 3000 j ∧
    ((j = n ∧
      pending w.2 =
        [Timer 1 (t0 + 3000 * Z.of_nat (S j)) (Some 3000)
           (ModelTraining.Poll 1 (model_id result))] ∧
      ∀ i, (i < j)%nat → unfinished (getModelById i)) ∨
     (pending w.2 = [] ∧ ∃ i, (i < j)%nat ∧ ¬ unfinished (getModelById i))).
(** After [n] ticks of the models list: the interval is armed for the
    next tick, and the refreshes were the one of the effect and, when the
    captured list holds a model in training, one per tick. *)
Definition ml_inv (t0 : Z) (fileId : option Z) (shown : list model_info)
    (n : nat) (w : ModelsList.state * clock ModelsList.callback) : Prop :=
  pending w.2 =
    [Timer 1 (t0 + 5000 * Z.of_nat (S n)) (Some 5000)
       (ModelsList.Tick shown fileId)] ∧
  rev (ModelsList.refresh_times w.1) =
    t0 :: (if existsb ModelsList.in_training shown then ticks t0 5000 n else []).

(** ** nissan-ml-platform: the route guards, App.js and the login form *)

Module Routes.
Section Routes.
Context {User : Type}.

Inductive view :=
| Spinner
| Navigate (to : string)
| Children.

(** routes/ProtectedRoute.js *)
Definition ProtectedRoute (s : Nissan.AuthContext.state (User := User)) : view :=
  if Nissan.AuthContext.loading s then Spinner
  else if negb (Nissan.AuthContext.isAuthenticated s) then Navigate "/login"
  else Children.

(** routes/PublicRoute.js *)
Definition PublicRoute (s : Nissan.AuthContext.state (User := User)) : view :=
  if Nissan.AuthContext.loading s then Spinner
  else if Nissan.AuthContext.isAuthenticated s then Navigate "/dashboard"
  else Children.

Inductive element :=
| Public
| Protected.

(** The routes of App.js whose path is a fixed, non-root one. *)
Definition routes : list (string * element) :=
  [("/login", Public); ("/register", Public);
   ("/dashboard", Protected); ("/files", Protected);
   ("/upload", Protected); ("/models", Protected);
   ("/models/train", Protected); ("/analysis", Protected);
   ("/profile", Protected); ("/settings", Protected)].

Definition route (path : string) : option element :=
  snd <$> List.find (fun r => String.eqb (fst r) path) routes.

Definition render (e : element) (s : Nissan.AuthContext.state (User := User))
    : view :=
  match e with
  | Public => PublicRoute s
  | Protected => ProtectedRoute s
  end.

(** Where the router settles when it starts at [path]: it follows at most
    [hops] redirects and stops at the first route that renders something
    else. *)
Fixpoint settle (hops : nat) (path : string)
    (s : Nissan.AuthContext.state (User := User)) : option (string * view) :=
  match route path with
  | None => None
  | Some e =>
      match render e s, hops with
      | Navigate to, S hops => settle hops to s
      | v, _ => Some (path, v)
      end
  end.

End Routes.
End Routes.

(** components/auth/LoginForm.js and RegisterForm.js: the submit handlers.
    The result is the form's [error], the state of the AuthProvider and
    the browser. *)
Module LoginForm.
Section LoginForm.
Context {User : Type}.


End LoginForm.
End LoginForm.

(** The two upload calls of the service modules: both send a [FormData]
    body and ask for [multipart/form-data] themselves. *)
Definition uploadFile_config : config :=
  mkConfig "POST" "/files/upload" (Some "multipart/form-data") true.

Definition uploadBatteryData_config (vehicleId : string) : config :=
  mkConfig "POST" ("/battery-data/upload/" +:+ vehicleId)
    (Some "multipart/form-data") true.

(** ** ev-battery-predictor: pages/Models.js, the Status and Performance
    columns

    A score is a JSON number or [null]; the literals [0.8] and [0.6] are
    the doubles nearest to them, given here by their exact value. *)

Module ModelsTable.

Record model := Model {
  id : Z;
  is_trained : bool;
  test_score : option Q
}.

Definition d0_8 : Q := 3602879701896397 # 4503599627370496.
Definition d0_6 : Q := 5404319552844595 # 9007199254740992.

Definition getStatusColor (model : model) : string :=
  if negb (is_trained model) then "orange"
  else if Js.gt (Js.toNumber (test_score model)) d0_8 then "green"
  else if Js.gt (Js.toNumber (test_score model)) d0_6 then "blue"
  else "red".

Definition getStatusText (model : model) : string :=
  if negb (is_trained model) then "Not Trained"
  else if Js.gt (Js.toNumber (test_score model)) d0_8 then "Excellent"
  else if Js.gt (Js.toNumber (test_score model)) d0_6 then "Good"
  else "Poor".

(** [ToBoolean] on a number or [null]: [null] and zero are falsy. *)
Definition truthy_number (v : option Q) : bool :=
  match v with
  | Some q => negb (Qeq_bool q 0)
  | None => false
  end.

(** The [strokeColor] of the progress ring in the Performance column; the
    ring is drawn for a trained model with a truthy score. *)
Definition strokeColor (record : model) : option string :=
  if is_trained record && truthy_number (test_score record) then
    Some (if Js.gt (Js.toNumber (test_score record)) 80 then "#52c41a"
          else if Js.gt (Js.toNumber (test_score record)) 60 then "#1890ff"
          else "#f5222d")
  else None.

End ModelsTable.

(** ** ev-battery-predictor: pages/VehicleDetail.js, the reading counters
    and the SOH tag *)

Module VehicleDetail.

Definition ge (a b : Q) : bool := Js.le b a.

Definition healthyReadings (batteryData : list Dashboard.reading) : nat :=
  length (List.filter
            (fun d => ge (Js.toNumber (Dashboard.state_of_health d)) 80)
            batteryData).

Definition warningReadings (batteryData : list Dashboard.reading) : nat :=
  length (List.filter
            (fun d => Js.lt (Js.toNumber (Dashboard.state_of_health d)) 80)
            batteryData).

(** The colour of the tag in the SOH column (the same in DataUpload.js). *)
Definition sohTag (value : option Q) : string :=
  if ge (Js.toNumber value) 90 then "green"
  else if ge (Js.toNumber value) 80 then "orange"
  else "red".

End VehicleDetail.

(** ** ev-battery-predictor: pages/Dashboard.js, [loadDashboardData] *)

Module DashboardLoad.

Record ml_model := MlModel {
  ml_id : Z;
  is_trained : bool
}.

Record stats := Stats {
  vehicles : nat;
  totalData : nat;
  models : nat;
  predictions : nat
}.

Record state := State {
  loading : bool;
  dashboard_stats : stats;
  recentData : list Dashboard.reading;
  error : string
}.

Definition initial : state :=
  {| loading := true; dashboard_stats := Stats 0 0 0 0; recentData := [];
     error := EmptyString |}.

(** [Array.prototype.sort] with the comparator
    [new Date(b.measurement_timestamp) - new Date(a.measurement_timestamp)]:
    the sort is stable, so it is the insertion of each reading before the
    first one that is not later. *)
Fixpoint insert (d : Dashboard.reading) (l : list Dashboard.reading)
    : list Dashboard.reading :=
  match l with
  | [] => [d]
  | d' :: l' =>
      if Dashboard.measurement_timestamp d' <=? Dashboard.measurement_timestamp d
      then d :: d' :: l'
      else d' :: insert d l'
  end.

Definition sort (l : list Dashboard.reading) : list Dashboard.reading :=
  foldr insert [] l.

Section Backend.
(** What the backend answers to GET /battery-data/vehicle/{id}?limit=n. *)
Variable getBatteryData : Z -> Z -> promise (list Dashboard.reading).

(** The body of the [for] loop, with its own [try]: the readings of the
    first answer are already appended when the second request fails. *)
Definition per_vehicle (acc : list Dashboard.reading * nat) (vehicleId : Z)
    : list Dashboard.reading * nat :=
  let '(batteryData, totalDataPoints) := acc in
  match getBatteryData vehicleId 10 with
  | inr data =>
      let batteryData := (batteryData ++ data)%list in
      match getBatteryData vehicleId 1000 with
      | inr allData => (batteryData, (totalDataPoints + length allData)%nat)
      | inl _ => (batteryData, totalDataPoints)
      end
  | inl _ => (batteryData, totalDataPoints)
  end.

Definition loadDashboardData (getVehicles : promise (list Z))
    (getModels : promise (list ml_model)) (s : state) : state :=
  match getVehicles with
  | inr vehicles =>
      match getModels with
      | inr models =>
          let '(batteryData, totalDataPoints) :=
            foldl per_vehicle ([], 0%nat) vehicles in
          {| loading := false;
             dashboard_stats :=
               {| vehicles := length vehicles;
                  totalData := totalDataPoints;
                  models := length models;
                  predictions := length (List.filter is_trained models) |};
             recentData := take 20 (sort batteryData);
             error := error s |}
      | inl _ =>
          {| loading := false; dashboard_stats := dashboard_stats s;
             recentData := recentData s;
             error := "Failed to load dashboard data" |}
      end
  | inl _ =>
      {| loading := false; dashboard_stats := dashboard_stats s;
         recentData := recentData s;
         error := "Failed to load dashboard data" |}
  end.

(** Everything the limit-10 requests brought in. *)
Definition fetched (vehicles : list Z) : list Dashboard.reading :=
  (foldl per_vehicle ([], 0%nat) vehicles).1.

End Backend.
End DashboardLoad.

(** ** ev-battery-predictor: pages/Predictions.js *)

Module Predictions.
Section Predictions.
Context {Forecast Metrics : Type}.

Record state := State {
  models : list DashboardLoad.ml_model;
  selectedModel : option Z;
  forecast : option Forecast;
  metrics : option Metrics;
  loading : bool;
  error : string
}.

Definition initial : state :=
  {| models := []; selectedModel := None; forecast := None; metrics := None;
     loading := false; error := EmptyString |}.

Definition loadModels (reply : promise (list DashboardLoad.ml_model))
    (s : state) : state :=
  match reply with
  | inr data =>
      {| models := List.filter DashboardLoad.is_trained data;
         selectedModel := None; forecast := None; metrics := None;
         loading := loading s; error := error s |}
  | inl _ =>
      {| models := models s; selectedModel := selectedModel s;
         forecast := forecast s; metrics := metrics s;
         loading := loading s; error := "Failed to load models" |}
  end.

Definition setSelectedModel (id : option Z) (s : state) : state :=
  {| models := models s; selectedModel := id; forecast := forecast s;
     metrics := metrics s; loading := loading s; error := error s |}.

(** The two requests are awaited one after the other, and only then are
    the two pieces of state set. *)
Definition generateForecast (getSOHForecast : promise Forecast)
    (getModelMetrics : promise Metrics) (s : state) : state :=
  match selectedModel s with
  | None => s
  | Some _ =>
      match getSOHForecast with
      | inr f =>
          match getModelMetrics with
          | inr m =>
              {| models := models s; selectedModel := selectedModel s;
                 forecast := Some f; metrics := Some m;
                 loading := false; error := EmptyString |}
          | inl _ =>
              {| models := models s; selectedModel := selectedModel s;
                 forecast := forecast s; metrics := metrics s;
                 loading := false; error := "Failed to generate forecast" |}
          end
      | inl _ =>
          {| models := models s; selectedModel := selectedModel s;
             forecast := forecast s; metrics := metrics s;
             loading := false; error := "Failed to generate forecast" |}
      end
  end.

(** What the user and the backend can do to the page. *)
Inductive action :=
| LoadModels (reply : promise (list DashboardLoad.ml_model))
| SelectModel (id : option Z)
| GenerateForecast (getSOHForecast : promise Forecast)
    (getModelMetrics : promise Metrics).

Definition perform (s : state) (a : action) : state :=
  match a with
  | LoadModels reply => loadModels reply s
  | SelectModel id => setSelectedModel id s
  | GenerateForecast f m => generateForecast f m s
  end.

End Predictions.
End Predictions.

(** ** nissan-ml-platform: ModelTraining.js, [handleReset] *)

Module TrainingForm.

Definition handleReset (s : ModelTraining.state) : ModelTraining.state :=
  ModelTraining.setTraining false
    (ModelTraining.setError None
       (ModelTraining.setActiveStep 0
          (ModelTraining.setTrainingResult None s))).

End TrainingForm.

(** ** nissan-ml-platform: components/files/FileUpload.js

    [onDrop] is split where it awaits the upload: [onDrop_start] runs up
    to the request, [onDrop_finish] runs when the answer is there, and
    the timers may fire in between. *)

Module FileUpload.

(** [name.endsWith(suffix)] *)
Definition endsWith (name suffix : string) : bool :=
  let n := String.length name in
  let m := String.length suffix in
  (m <=? n)%nat && String.eqb (String.substring (n - m) m name) suffix.

Record state := State {
  uploading : bool;
  uploadProgress : Z;
  error : option string;
  success : bool;
  uploaded : nat;                  (* calls of [onFileUploaded] *)
  network : list string            (* names of the files sent *)
}.

Definition initial : state :=
  {| uploading := false; uploadProgress := 0; error := None;
     success := false; uploaded := 0; network := [] |}.

Definition setUploading (v : bool) (s : state) : state :=
  {| uploading := v; uploadProgress := uploadProgress s; error := error s;
     success := success s; uploaded := uploaded s; network := network s |}.
Definition setUploadProgress (v : Z) (s : state) : state :=
  {| uploading := uploading s; uploadProgress := v; error := error s;
     success := success s; uploaded := uploaded s; network := network s |}.
Definition setError (v : option string) (s : state) : state :=
  {| uploading := uploading s; uploadProgress := uploadProgress s; error := v;
     success := success s; uploaded := uploaded s; network := network s |}.
Definition setSuccess (v : bool) (s : state) : state :=
  {| uploading := uploading s; uploadProgress := uploadProgress s;
     error := error s; success := v; uploaded := uploaded s;
     network := network s |}.
Definition onFileUploaded (s : state) : state :=
  {| uploading := uploading s; uploadProgress := uploadProgress s;
     error := error s; success := success s; uploaded := S (uploaded s);
     network := network s |}.
Definition send (name : string) (s : state) : state :=
  {| uploading := uploading s; uploadProgress := uploadProgress s;
     error := error s; success := success s; uploaded := uploaded s;
     network := name :: network s |}.

Inductive callback :=
| ProgressTick (progressInterval : nat)
| ResetProgress.

Definition exec (cb : callback) (w : state * clock callback)
    : state * clock callback :=
  let '(s, k) := w in
  match cb with
  | ProgressTick progressInterval =>
      let prev := uploadProgress s in
      if 90 <=? prev
      then (setUploadProgress 90 s, clearInterval progressInterval k)
      else (setUploadProgress (prev + 10) s, k)
  | ResetProgress => (setSuccess false (setUploadProgress 0 s), k)
  end.

(** Up to the [await]: the handle of the progress interval when an upload
    was started. *)
Definition onDrop_start (acceptedFiles : list string)
    (w : state * clock callback) : option nat * (state * clock callback) :=
  let '(s, k) := w in
  match acceptedFiles with
  | [] => (None, w)
  | name :: _ =>
      if negb (endsWith name ".csv")
      then (None, (setError (Some "Solo se permiten archivos CSV") s, k))
      else
        let s := setUploading true (setSuccess false (setError None s)) in
        let '(progressInterval, k) := setInterval ProgressTick 300 k in
        (Some progressInterval, (send name s, k))
  end.

(** From the answer of the upload on.  The parent passes
    [onFileUploaded]; without it [uploaded] would stay as it is. *)
Definition onDrop_finish {U : Type} (progressInterval : nat) (reply : promise U)
    (w : state * clock callback) : state * clock callback :=
  let '(s, k) := w in
  match reply with
  | inr _ =>
      let k := clearInterval progressInterval k in
      let s := onFileUploaded (setSuccess true (setUploadProgress 100 s)) in
      let '(_, k) := setTimeout ResetProgress 3000 k in
      (setUploading false s, k)
  | inl err =>
      (setUploading false
         (setError (Some (detail_or err "Error al subir archivo")) s), k)
  end.

End FileUpload.

(** ** nissan-ml-platform: components/preprocessing/DataPreprocessing.js,
    the option and column handlers *)

Module DataPreprocessing.

Record options := Options {
  remove_nulls : bool;
  fill_nulls : bool;
  fill_method : string;
  drop_duplicates : bool;
  remove_outliers : bool;
  columns_to_process : list string
}.

Record state := State {
  preview_columns : option (list string);      (* [preview?.columns] *)
  form_options : options;                      (* the state [options] *)
  selectedColumns : list string
}.

Definition initial : state :=
  {| preview_columns := None;
     form_options := Options true false "mean" true false [];
     selectedColumns := [] |}.

Definition set_columns (cols : list string) (o : options) : options :=
  {| remove_nulls := remove_nulls o; fill_nulls := fill_nulls o;
     fill_method := fill_method o; drop_duplicates := drop_duplicates o;
     remove_outliers := remove_outliers o; columns_to_process := cols |}.

(** The controls wired to [handleOptionChange]: four checkboxes and the
    select of the fill method. *)
Inductive checkbox := RemoveNulls | FillNulls | DropDuplicates | RemoveOutliers.

Inductive change :=
| Check (name : checkbox) (checked : bool)
| Choose (value : string).

Definition handleOptionChange (event : change) (s : state) : state :=
  let o := form_options s in
  let o :=
    match event with
    | Check RemoveNulls checked =>
        Options checked (fill_nulls o) (fill_method o) (drop_duplicates o)
          (remove_outliers o) (columns_to_process o)
    | Check FillNulls checked =>
        Options (remove_nulls o) checked (fill_method o) (drop_duplicates o)
          (remove_outliers o) (columns_to_process o)
    | Check DropDuplicates checked =>
        Options (remove_nulls o) (fill_nulls o) (fill_method o) checked
          (remove_outliers o) (columns_to_process o)
    | Check RemoveOutliers checked =>
        Options (remove_nulls o) (fill_nulls o) (fill_method o)
          (drop_duplicates o) checked (columns_to_process o)
    | Choose value =>
        Options (remove_nulls o) (fill_nulls o) value (drop_duplicates o)
          (remove_outliers o) (columns_to_process o)
    end in
  {| preview_columns := preview_columns s; form_options := o;
     selectedColumns := selectedColumns s |}.

(** [selectedColumns.indexOf(columnName)], [None] for [-1]. *)
Fixpoint indexOf (columnName : string) (l : list string) : option nat :=
  match l with
  | [] => None
  | c :: l' =>
      if String.eqb c columnName then Some 0%nat
      else S <$> indexOf columnName l'
  end.

Definition handleColumnToggle (columnName : string) (s : state) : state :=
  let newSelectedColumns :=
    match indexOf columnName (selectedColumns s) with
    | None => (selectedColumns s ++ [columnName])%list       (* push *)
    | Some currentIndex => delete currentIndex (selectedColumns s)  (* splice *)
    end in
  {| preview_columns := preview_columns s;
     form_options := set_columns newSelectedColumns (form_options s);
     selectedColumns := newSelectedColumns |}.

Definition handleSelectAllColumns (select : bool) (s : state) : state :=
  let cols := if select then default [] (preview_columns s) else [] in
  {| preview_columns := preview_columns s;
     form_options := set_columns cols (form_options s);
     selectedColumns := cols |}.

(** The end of [loadFileData]: the preview arrived with its columns. *)
Definition previewLoaded (columns : option (list string)) (s : state) : state :=
  match columns with
  | Some cols =>
      {| preview_columns := columns;
         form_options := set_columns cols (form_options s);
         selectedColumns := cols |}
  | None =>
      {| preview_columns := columns; form_options := form_options s;
         selectedColumns := selectedColumns s |}
  end.

Inductive action :=
| PreviewLoaded (columns : option (list string))
| OptionChange (event : change)
| ColumnToggle (columnName : string)
| SelectAllColumns (select : bool).

Definition perform (s : state) (a : action) : state :=
  match a with
  | PreviewLoaded columns => previewLoaded columns s
  | OptionChange event => handleOptionChange event s
  | ColumnToggle c => handleColumnToggle c s
  | SelectAllColumns select => handleSelectAllColumns select s
  end.

End DataPreprocessing.

(** ** A user event at a later time

    The page stays idle until [t], before any pending timer is due, and
    the handler of the event then reads the time [t]. *)
Definition at_time {C} (t : Z) (k : clock C) : clock C :=
  {| now := t; next_handle := next_handle k; pending := pending k |}.

(** ** The delete dialogs of FilesList.js and ModelsList.js as the user
    drives them: a click on a row's delete button, closing the dialog,
    confirming with the answer the DELETE request then gets. *)

Module FilesListPage.

Inductive action :=
| DeleteClick (file : FilesList.file)
| CloseDialog
| DeleteConfirm (reply : promise unit).

Definition perform (onRefreshNeeded : bool) (s : FilesList.state) (a : action)
    : FilesList.state :=
  match a with
  | DeleteClick file => FilesList.handleDeleteClick file s
  | CloseDialog => FilesList.handleCloseDialog s
  | DeleteConfirm reply => FilesList.handleDeleteConfirm onRefreshNeeded reply s
  end.

End FilesListPage.

Module ModelsListPage.

Inductive action :=
| DeleteClick (model : model_info)
| CloseDialog
| DeleteConfirm (t : Z) (reply : promise unit).

Definition perform (s : ModelsList.state) (a : action) : ModelsList.state :=
  match a with
  | DeleteClick model => ModelsList.handleDeleteClick model s
  | CloseDialog => ModelsList.handleCloseDialog s
  | DeleteConfirm t reply => ModelsList.handleDeleteConfirm t reply s
  end.

End ModelsListPage.

(** What holds of the files list after the user's [actions] from [s0]:
    the dialog is open exactly when a file is named in it; no deletion is
    in flight; the file named is one whose delete button was clicked; the
    list shown is the first one with entries taken out; every request
    sent is a DELETE for a file that was clicked; and an entry that is
    gone had a DELETE sent for its id. *)
Definition files_dialog_inv (s0 : FilesList.state)
    (actions : list FilesListPage.action) (s : FilesList.state) : Prop :=
  (FilesList.deleteDialogOpen s = true ↔ is_Some (FilesList.fileToDelete s)) ∧
  FilesList.deleting s = false ∧
  (∀ f, FilesList.fileToDelete s = Some f →
        FilesListPage.DeleteClick f ∈ actions) ∧
  FilesList.files s `sublist_of` FilesList.files s0 ∧
  (∀ r, r ∈ FilesList.network s →
        r ∈ FilesList.network s0 ∨
        ∃ f, FilesListPage.DeleteClick f ∈ actions ∧
             r = FilesList.DeleteFile (FilesList.file_id f)) ∧
  (∀ x, x ∈ FilesList.files s0 → x ∉ FilesList.files s →
        FilesList.DeleteFile (FilesList.file_id x) ∈ FilesList.network s).

(** The same of the models list. *)
Definition models_dialog_inv (s0 : ModelsList.state)
    (actions : list ModelsListPage.action) (s : ModelsList.state) : Prop :=
  (ModelsList.deleteDialogOpen s = true ↔ is_Some (ModelsList.modelToDelete s)) ∧
  ModelsList.deleting s = false ∧
  (∀ f, ModelsList.modelToDelete s = Some f →
        ModelsListPage.DeleteClick f ∈ actions) ∧
  ModelsList.models s `sublist_of` ModelsList.models s0 ∧
  (∀ r, r ∈ ModelsList.network s →
        r ∈ ModelsList.network s0 ∨
        ∃ f, ModelsListPage.DeleteClick f ∈ actions ∧
             r.2 = ModelsList.DeleteModel (model_id f)) ∧
  (∀ x, x ∈ ModelsList.models s0 → x ∉ ModelsList.models s →
        ∃ t, (t, ModelsList.DeleteModel (model_id x)) ∈ ModelsList.network s).

(** ** DataPreprocessing.js: the checkbox of a column,
    [checked={selectedColumns.indexOf(column) !== -1}] *)
Definition column_checked (column : string) (s : DataPreprocessing.state) : bool :=
  match DataPreprocessing.indexOf column (DataPreprocessing.selectedColumns s) with
  | Some _ => true
  | None => false
  end.

(** ** EV dashboard: the order of the sort comparator,
    [new Date(b.measurement_timestamp) - new Date(a.measurement_timestamp)]:
    [a] may stand before [b]. *)
Definition not_later (a b : Dashboard.reading) : Prop :=
  Dashboard.measurement_timestamp b <= Dashboard.measurement_timestamp a.

(** * Properties *)

(** ** The token store *)

Lemma truthy_Some (v : option string) :
  Js.truthy v = true ↔ ∃ t, v = Some t ∧ t ≠ EmptyString.
Proof.
  split.
  - destruct v as [[|c t]|]; simpl; try discriminate. intros _. by eexists.
  - intros (t & -> & Ht). destruct t; [done | reflexivity].
Qed.

Lemma truthy_None : Js.truthy None = false.
Proof. reflexivity. Qed.

Lemma getItem_setItem k v b : getItem k (setItem k v b) = Some v.
Proof. unfold getItem, setItem; simpl. apply lookup_insert_eq. Qed.

Lemma getItem_setItem_ne k k' v b :
  k ≠ k' → getItem k' (setItem k v b) = getItem k' b.
Proof. intros. unfold getItem, setItem; simpl. by apply lookup_insert_ne. Qed.

Lemma getItem_removeItem k b : getItem k (removeItem k b) = None.
Proof. unfold getItem, removeItem; simpl. apply lookup_delete_eq. Qed.

Lemma getItem_removeItem_ne k k' b :
  k ≠ k' → getItem k' (removeItem k b) = getItem k' b.
Proof. intros. unfold getItem, removeItem; simpl. by apply lookup_delete_ne. Qed.

Lemma getItem_navigate k to b : getItem k (navigate to b) = getItem k b.
Proof. reflexivity. Qed.

(** ** The interceptors *)

Lemma mkConfig_no_authorization m u ct form :
  headers (mkConfig m u ct form) !! "Authorization" = None.
Proof.
  unfold mkConfig, default_headers; simpl.
  destruct ct; [rewrite lookup_insert_ne by done |]; by rewrite lookup_singleton_ne.
Qed.

Lemma nissan_request_authorization b cfg :
  headers (nissan_request_interceptor b cfg) !! "Authorization" =
    match getItem "token" b with
    | Some (String c t) => Some ("Bearer " +:+ String c t)
    | _ => headers cfg !! "Authorization"
    end.
Proof.
  unfold nissan_request_interceptor.
  destruct (getItem "token" b) as [[|c t]|]; simpl; try done.
  apply lookup_insert_eq.
Qed.

Lemma ev_request_authorization b cfg :
  headers (ev_request_interceptor b cfg) !! "Authorization" =
    match getItem "token" b with
    | Some (String c t) => Some ("Bearer " +:+ String c t)
    | _ => headers cfg !! "Authorization"
    end.
Proof.
  unfold ev_request_interceptor.
  destruct (getItem "token" b) as [[|c t]|]; simpl;
    destruct (isFormData cfg); simpl;
    rewrite ?lookup_delete_ne by done; try done; apply lookup_insert_eq.
Qed.

Lemma nissan_request_url b cfg : url (nissan_request_interceptor b cfg) = url cfg.
Proof. unfold nissan_request_interceptor. by destruct (Js.truthy _). Qed.

Lemma ev_request_url b cfg : url (ev_request_interceptor b cfg) = url cfg.
Proof.
  unfold ev_request_interceptor.
  destruct (Js.truthy _); simpl; by destruct (isFormData cfg).
Qed.

Lemma nissan_rejects A err b : (@nissan_response_interceptor A err b).1 = inl err.
Proof. reflexivity. Qed.

Lemma ev_rejects A err b : (@ev_response_interceptor A err b).1 = inl err.
Proof.
  unfold ev_response_interceptor.
  destruct (response_status err) as [[|p|p]|]; try reflexivity.
  do 9 (destruct p as [p|p|]; try reflexivity).
Qed.

(** C5.  A request built by the service modules and sent through either
    shared client carries [Authorization: Bearer <token>] when the store
    holds a token, and no Authorization header when it holds none (the key
    is absent, or holds the empty string, which [if (token)] rejects). *)
Theorem request_carries_bearer_token
    (A : Type) (m u : string) (ct : option string) (form : bool)
    (reply : promise A) (b : browser) :
  let cfg := mkConfig m u ct form in
  let sent_nissan := (apiClient cfg reply b).2 in
  let sent_ev := (api cfg reply b).2 in
  (∀ token, getItem "token" b = Some token → token ≠ EmptyString →
     headers sent_nissan !! "Authorization" = Some ("Bearer " +:+ token) ∧
     headers sent_ev !! "Authorization" = Some ("Bearer " +:+ token)) ∧
  (getItem "token" b = None ∨ getItem "token" b = Some EmptyString →
     headers sent_nissan !! "Authorization" = None ∧
     headers sent_ev !! "Authorization" = None).
Proof.
  intros cfg sent_nissan sent_ev.
  assert (Hn : sent_nissan = nissan_request_interceptor b cfg)
    by (subst sent_nissan; unfold apiClient, round_trip; by destruct reply).
  assert (He : sent_ev = ev_request_interceptor b cfg)
    by (subst sent_ev; unfold api, round_trip; by destruct reply).
  rewrite Hn, He, nissan_request_authorization, ev_request_authorization.
  split.
  - intros token -> Hne. by destruct token.
  - subst cfg. intros [-> | ->]; by rewrite mkConfig_no_authorization.
Qed.

Lemma request_carries_bearer_token_witness :
  let b := setItem "token" "abc" (Browser.Mk ∅ "/") in
  headers (apiClient (A := unit) (mkConfig "GET" "/files/list" None false)
             (inr tt) b).2 !! "Authorization" = Some "Bearer abc" ∧
  headers (api (A := unit) (mkConfig "GET" "/vehicles" None false)
             (inr tt) (Browser.Mk ∅ "/")).2 !! "Authorization" = None.
Proof.
  split.
  - apply (request_carries_bearer_token unit "GET" "/files/list" None false
             (inr tt) (setItem "token" "abc" (Browser.Mk ∅ "/"))).
    + reflexivity.
    + discriminate.
  - apply (request_carries_bearer_token unit "GET" "/vehicles" None false
             (inr tt) (Browser.Mk ∅ "/")).
    left. reflexivity.
Defined.

(** C8.  In both clients a rejected response is rejected again to the
    caller; when its status is 401 the token is gone from the store (no
    other key is touched) and the page is at /login, and for every other
    rejection the browser is left as it was. *)
Theorem unauthorized_response_drops_token
    (A : Type) (cfg : config) (err : axios_error) (b : browser) :
  let out_nissan := apiClient (A := A) cfg (inl err) b in
  let out_ev := api (A := A) cfg (inl err) b in
  out_nissan.1.1 = inl err ∧ out_ev.1.1 = inl err ∧
  (response_status err = Some 401 →
     out_nissan.1.2 = out_ev.1.2 ∧
     getItem "token" out_ev.1.2 = None ∧
     href out_ev.1.2 = "/login" ∧
     ∀ k, k ≠ "token" → getItem k out_ev.1.2 = getItem k b) ∧
  (response_status err ≠ Some 401 →
     out_nissan.1.2 = b ∧ out_ev.1.2 = b).
Proof.
  unfold apiClient, api, round_trip, nissan_response_interceptor,
    ev_response_interceptor; simpl.
  destruct (response_status err) as [st|] eqn:Hst; simpl.
  - destruct (Z.eqb_spec st 401) as [-> | Hne]; simpl.
    + repeat split; try done.
      * apply getItem_removeItem.
      * intros k Hk. rewrite getItem_navigate. by apply getItem_removeItem_ne.
    + assert (Hev : ∀ b1 b2 : promise A * browser,
                match st with 401 => b1 | _ => b2 end = b2).
      { intros. destruct st as [|p|p]; try done.
        do 9 (destruct p as [p|p|]; try done). }
      rewrite Hev. split; [done|]. split; [done|]. split; [intros [=]; done | done].
  - repeat split; done.
Qed.

Lemma unauthorized_response_drops_token_witness :
  let b := setItem "token" "abc" (Browser.Mk ∅ "/models") in
  getItem "token"
    (api (A := unit) (mkConfig "GET" "/vehicles" None false)
       (inl (AxiosError (Some 401) None "Unauthorized")) b).1.2 = None ∧
  (api (A := unit) (mkConfig "GET" "/vehicles" None false)
       (inl (AxiosError (Some 500) None "Server Error")) b).1.2 = b.
Proof.
  split.
  - apply (unauthorized_response_drops_token unit
             (mkConfig "GET" "/vehicles" None false)
             (AxiosError (Some 401) None "Unauthorized")
             (setItem "token" "abc" (Browser.Mk ∅ "/models"))).
    reflexivity.
  - apply (unauthorized_response_drops_token unit
             (mkConfig "GET" "/vehicles" None false)
             (AxiosError (Some 500) None "Server Error")
             (setItem "token" "abc" (Browser.Mk ∅ "/models"))).
    discriminate.
Defined.

(** ** Authentication *)

Lemma Js_lt_spec (a b : Q) : Js.lt a b = true ↔ (a < b)%Q.
Proof. unfold Js.lt, Qlt. apply Z.ltb_lt. Qed.

Lemma Js_le_spec (a b : Q) : Js.le a b = true ↔ (a <= b)%Q.
Proof. unfold Js.le, Qle. apply Z.leb_le. Qed.

Lemma expired_decide jwtDecode token now_ms :
  expired jwtDecode token now_ms ↔
  match jwtDecode token with
  | Some p => Js.lt_undef (exp p) (Nissan.AuthContext.currentTime now_ms) = true
  | None => True
  end.
Proof.
  unfold expired, Nissan.AuthContext.currentTime.
  destruct (jwtDecode token) as [[[e|]]|]; simpl.
  - rewrite Js_lt_spec. split.
    + intros [? | (p & e' & [= <-] & [= <-] & ?)]; done.
    + intros ?. right. by eexists _, _.
  - split; [| done]. intros [? | (p & e' & [= <-] & ? & ?)]; done.
  - split; [done | by left].
Qed.

(** C4.  A successful login leaves the store equal to the old one with the
    backend's [access_token] under the key [token] (through
    [authService.login], through the Nissan context and through the EV
    context); logout leaves it equal to the old one without that key; and
    [authService.isAuthenticated] answers true exactly when the key holds
    a non-empty string. *)
Theorem token_store_login_logout
    (User : Type) (access : string) (u : User) (b : browser)
    (sn : Nissan.AuthContext.state) (se : Ev.AuthContext.state) :
  let granted : promise token_response := inr (TokenResponse access) in
  localStorage (Nissan.authService.login granted b).2
    = <["token" := access]> (localStorage b) ∧
  localStorage (Nissan.AuthContext.login granted (inr u) b sn).2
    = <["token" := access]> (localStorage b) ∧
  localStorage (Ev.AuthContext.login granted (inr u) b se).2
    = <["token" := access]> (localStorage b) ∧
  localStorage (Nissan.authService.logout b) = delete "token" (localStorage b) ∧
  localStorage (Nissan.AuthContext.logout b sn).2 = delete "token" (localStorage b) ∧
  localStorage (Ev.AuthContext.logout b se).2 = delete "token" (localStorage b) ∧
  (Nissan.authService.isAuthenticated b = true ↔
     ∃ token, localStorage b !! "token" = Some token ∧ token ≠ EmptyString).
Proof.
  repeat split; try reflexivity.
  - apply truthy_Some.
  - apply truthy_Some.
Qed.

(** C3, frontend by frontend.  The Nissan frontend has the expiry guard: on mount
    with a token in the store, a token that does not decode or whose [exp]
    lies before [Date.now() / 1000] is removed, the user stays
    unauthenticated and nothing is requested, and otherwise the profile is
    requested with that token.  The EV frontend compares nothing: with a
    token in the store it always requests the profile, keeps the token and
    authenticates the user when the request succeeds, and removes the
    token when it fails. *)
Theorem nissan_expiry_guard_ev_profile_probe
    (User : Type) (jwtDecode : string -> option jwt_payload) :
  expiry_guard (User := User) jwtDecode (nissan_init jwtDecode) ∧
  ∀ (now_ms : Z) (profile : promise User) (b : browser) (token : string),
    getItem "token" b = Some token → token ≠ EmptyString →
    (∃ req, (ev_init now_ms profile b).2 = [req] ∧ url req = "/auth/me" ∧
            headers req !! "Authorization" = Some ("Bearer " +:+ token)) ∧
    (∀ data, profile = inr data →
       (ev_init now_ms profile b).1 = (true, b)) ∧
    (∀ err, profile = inl err →
       (ev_init now_ms profile b).1.1 = false ∧
       getItem "token" (ev_init now_ms profile b).1.2 = None).
Proof.
  split.
  - intros now_ms me b token Htok Hne.
    assert (Htr : Js.truthy (Some token) = true)
      by (apply truthy_Some; by eexists).
    rewrite expired_decide.
    unfold nissan_init, Nissan.AuthContext.initAuth.
    rewrite Htok, Htr; simpl.
    destruct (jwtDecode token) as [p|]; simpl.
    + destruct (Js.lt_undef (exp p) _) eqn:Hlt; simpl.
      * split; [| done]. intros _. by rewrite getItem_removeItem.
      * split; [done |]. intros _.
        unfold Nissan.authService.getCurrentUser, apiClient, round_trip.
        destruct me as [err | data]; simpl.
        -- pose proof (nissan_rejects User err b) as Hr.
           destruct (nissan_response_interceptor err b) as [r b'].
           simpl in Hr; subst r. simpl. eexists. split; [done |]. split; [by rewrite nissan_request_url |].
           rewrite nissan_request_authorization, Htok. by destruct token.
        -- eexists. split; [done |]. split; [by rewrite nissan_request_url |].
           rewrite nissan_request_authorization, Htok. by destruct token.
    + split; [| by intros []]. intros _. by rewrite getItem_removeItem.
  - intros now_ms profile b token Htok Hne.
    assert (Htr : Js.truthy (Some token) = true)
      by (apply truthy_Some; by eexists).
    unfold ev_init, Ev.AuthContext.init, Ev.authAPI.getProfile, api, round_trip.
    rewrite Htok, Htr.
    destruct profile as [err | data]; simpl.
    + pose proof (ev_rejects User err b) as Hr.
      destruct (ev_response_interceptor err b) as [r b'].
      simpl in Hr; subst r. simpl. split; [| split].
      * eexists. split; [done |]. split; [by rewrite ev_request_url |].
        rewrite ev_request_authorization, Htok. by destruct token.
      * intros data [=].
      * intros err' _. split; [done |]. apply getItem_removeItem.
    + split; [| split].
      * eexists. split; [done |]. split; [by rewrite ev_request_url |].
        rewrite ev_request_authorization, Htok. by destruct token.
      * intros data' _. done.
      * intros err [=].
Qed.

Lemma nissan_expiry_guard_ev_profile_probe_witness :
  let decode := fun _ : string => Some (JwtPayload (Some 0%Q)) in
  let b := setItem "token" "stale" (Browser.Mk ∅ "/") in
  getItem "token" (nissan_init (User := unit) decode 1000 (inr tt) b).1.2 = None ∧
  (ev_init (User := unit) 1000 (inr tt) b).1 = (true, b).
Proof.
  intros decode b.
  destruct (nissan_expiry_guard_ev_profile_probe unit decode) as [Hn He].
  split.
  - destruct (Hn 1000 (inr tt) b "stale") as [Hexp _].
    + reflexivity.
    + discriminate.
    + apply Hexp. right. exists (JwtPayload (Some 0%Q)), 0%Q.
      split; [reflexivity |]. split; reflexivity.
  - destruct (He 1000 (inr tt) b "stale") as (_ & Hok & _).
    + reflexivity.
    + discriminate.
    + apply (Hok tt). reflexivity.
Defined.

(** The EV mount effect does not have the expiry guard: with a token
    whose [exp] is 0 in the store, one second after the epoch, it requests
    the profile all the same (here the backend turns the token down with
    a 401, and only that removes it). *)
Lemma ev_init_has_no_expiry_guard :
  ¬ expiry_guard (User := unit)
      (fun _ : string => Some (JwtPayload (Some 0%Q))) ev_init.
Proof.
  intros Hguard.
  destruct (Hguard 1000 (inl (AxiosError (Some 401) None "Unauthorized"))
              (setItem "token" "stale" (Browser.Mk ∅ "/")) "stale") as [Hexp _].
  - reflexivity.
  - discriminate.
  - destruct Hexp as (_ & _ & Hsent).
    + right. exists (JwtPayload (Some 0%Q)), 0%Q.
      split; [reflexivity |]. split; reflexivity.
    + discriminate Hsent.
Qed.

(** ** Confirmed deletion *)

Lemma filter_keeps_all {A} (P : A -> Prop) `{∀ x, Decision (P x)} (l : list A) :
  Forall P l → filter P l = l.
Proof.
  induction 1 as [|x l Hx _ IH]; [done |].
  rewrite filter_cons_True by done. by rewrite IH.
Qed.

Lemma filter_other_ids {A} (key : A -> Z) (target : A) (l : list A) :
  NoDup (key <$> l) → target ∈ l →
  ∃ l1 l2, l = (l1 ++ target :: l2)%list ∧
           filter (fun x => key x ≠ key target) l = (l1 ++ l2)%list.
Proof.
  intros Hnd Hin.
  apply list_elem_of_split in Hin as (l1 & l2 & ->).
  exists l1, l2. split; [done |].
  rewrite fmap_app, fmap_cons in Hnd.
  apply NoDup_app in Hnd as (Hnd1 & Hdisj & Hnd2).
  apply NoDup_cons in Hnd2 as [Hnotin _].
  rewrite filter_app, filter_cons_False by (intros Hne; by apply Hne).
  f_equal; apply filter_keeps_all, Forall_forall; intros x Hx Heq.
  - apply (Hdisj (key x)); [by apply list_elem_of_fmap_2 |].
    rewrite Heq. apply list_elem_of_here.
  - apply Hnotin. rewrite <- Heq. by apply list_elem_of_fmap_2.
Qed.

Lemma FilesList_delete_fulfilled onRefreshNeeded fs f :
  FilesList.fileToDelete fs = Some f →
  FilesList.files (FilesList.handleDeleteConfirm onRefreshNeeded (inr tt) fs) =
  filter (fun x => FilesList.file_id x ≠ FilesList.file_id f) (FilesList.files fs).
Proof.
  intros Hf. unfold FilesList.handleDeleteConfirm. rewrite Hf.
  by destruct onRefreshNeeded.
Qed.

Lemma ModelsList_delete_fulfilled t ms m :
  ModelsList.modelToDelete ms = Some m →
  ModelsList.models (ModelsList.handleDeleteConfirm t (inr tt) ms) =
  filter (fun x => model_id x ≠ model_id m) (ModelsList.models ms).
Proof.
  intros Hm. unfold ModelsList.handleDeleteConfirm. by rewrite Hm.
Qed.

(** C9.  In the files list and in the models list, a confirmed deletion
    whose request is rejected leaves the displayed list as it was; one
    whose request succeeds leaves the displayed list filtered by
    [id !== target.id]: an entry is displayed afterwards exactly when it
    was displayed before and has another id, in the same order, and when
    ids are unique and the target was displayed the new list is the old
    one with that single entry taken out. *)
Theorem confirmed_delete_updates_list
    (onRefreshNeeded : bool) (t : Z)
    (fs : FilesList.state) (f : FilesList.file)
    (ms : ModelsList.state) (m : model_info)
    (Hf : FilesList.fileToDelete fs = Some f)
    (Hm : ModelsList.modelToDelete ms = Some m) :
  (∀ err,
     FilesList.files (FilesList.handleDeleteConfirm onRefreshNeeded (inl err) fs)
       = FilesList.files fs ∧
     ModelsList.models (ModelsList.handleDeleteConfirm t (inl err) ms)
       = ModelsList.models ms) ∧
  let files' :=
    FilesList.files (FilesList.handleDeleteConfirm onRefreshNeeded (inr tt) fs) in
  let models' :=
    ModelsList.models (ModelsList.handleDeleteConfirm t (inr tt) ms) in
  (∀ x, x ∈ files' ↔
        x ∈ FilesList.files fs ∧ FilesList.file_id x ≠ FilesList.file_id f) ∧
  (∀ x, x ∈ models' ↔
        x ∈ ModelsList.models ms ∧ model_id x ≠ model_id m) ∧
  files' `sublist_of` FilesList.files fs ∧
  models' `sublist_of` ModelsList.models ms ∧
  (NoDup (FilesList.file_id <$> FilesList.files fs) → f ∈ FilesList.files fs →
     ∃ l1 l2, FilesList.files fs = (l1 ++ f :: l2)%list ∧ files' = (l1 ++ l2)%list) ∧
  (NoDup (model_id <$> ModelsList.models ms) → m ∈ ModelsList.models ms →
     ∃ l1 l2, ModelsList.models ms = (l1 ++ m :: l2)%list ∧ models' = (l1 ++ l2)%list).
Proof.
  split.
  { intros err. unfold FilesList.handleDeleteConfirm, ModelsList.handleDeleteConfirm.
    by rewrite Hf, Hm. }
  intros files' models'. subst files' models'.
  rewrite (FilesList_delete_fulfilled _ _ _ Hf), (ModelsList_delete_fulfilled _ _ _ Hm).
  split; [intros x; rewrite list_elem_of_filter; tauto |].
  split; [intros x; rewrite list_elem_of_filter; tauto |].
  split; [apply sublist_filter |].
  split; [apply sublist_filter |].
  split; apply filter_other_ids.
Qed.

Lemma confirmed_delete_updates_list_witness :
  let a := FilesList.File 1 "a.csv" 10 false "2024-01-01" in
  let b := FilesList.File 2 "b.csv" 20 true "2024-01-02" in
  let fs := FilesList.State [a; b] false None true (Some a) false 0 [] in
  let p := ModelInfo 7 "completed" in
  let q := ModelInfo 8 "training" in
  let ms := ModelsList.State [p; q] false None true (Some q) false [] in
  FilesList.files (FilesList.handleDeleteConfirm true
                     (inl (AxiosError (Some 500) None "Server Error")) fs)
    = [a; b] ∧
  ∃ l1 l2, [p; q] = (l1 ++ q :: l2)%list ∧
    ModelsList.models (ModelsList.handleDeleteConfirm 0 (inr tt) ms) = (l1 ++ l2)%list.
Proof.
  intros a b fs p q ms.
  pose proof (confirmed_delete_updates_list true 0 fs a ms q eq_refl eq_refl)
    as (Hfail & _ & _ & _ & _ & _ & Hmodels).
  split.
  - apply Hfail.
  - apply Hmodels.
    + simpl. apply NoDup_cons. split; [| apply NoDup_singleton].
      intros Hin. apply list_elem_of_singleton in Hin. discriminate Hin.
    + apply list_elem_of_further, list_elem_of_here.
Defined.

(** ** The dashboard counters *)

Lemma Js_gt_le_complement (q bound : Q) : Js.gt q bound = negb (Js.le q bound).
Proof. unfold Js.gt, Js.lt, Js.le. apply Z.ltb_antisym. Qed.

(** C10.  For every list of recent readings the Healthy Readings count
    ([state_of_health > 80]) and the Warning Readings count
    ([state_of_health <= 80]) add up to the length of the list, and these
    are the two counts the Quick Stats card shows.  A reading whose
    [state_of_health] is [null] counts as a warning. *)
Theorem quick_stats_partition
    (toFixed : Q -> nat -> string) (recentData : list Dashboard.reading) :
  (Dashboard.healthyReadings recentData + Dashboard.warningReadings recentData
     = length recentData)%nat ∧
  ∀ latest healthy warning,
    Dashboard.quickStats toFixed recentData = Some (latest, healthy, warning) →
    (healthy + warning = length recentData)%nat.
Proof.
  assert (Hsum : (Dashboard.healthyReadings recentData
                  + Dashboard.warningReadings recentData
                  = length recentData)%nat).
  { unfold Dashboard.healthyReadings, Dashboard.warningReadings.
    induction recentData as [|d l IH]; [reflexivity |].
    simpl. rewrite Js_gt_le_complement.
    destruct (Js.le (Js.toNumber (Dashboard.state_of_health d)) 80); simpl; lia. }
  split; [exact Hsum |].
  intros latest healthy warning. unfold Dashboard.quickStats.
  destruct (0 <? length recentData)%nat; [| discriminate].
  intros [= _ <- <-]. exact Hsum.
Qed.

Lemma quick_stats_partition_witness :
  let shown := [Dashboard.Reading (Some 95%Q) 3; Dashboard.Reading None 2;
                Dashboard.Reading (Some (151 # 2)) 1] in
  Dashboard.quickStats (fun _ _ => "95.0") shown = Some ("95.0%", 1%nat, 2%nat) ∧
  (1 + 2 = length shown)%nat.
Proof.
  intros shown. split; [reflexivity |].
  apply (proj2 (quick_stats_partition (fun _ _ => "95.0") shown) "95.0%").
  reflexivity.
Defined.

(** ** The custom prediction *)

(** C6.  A custom prediction with the input [x] sends exactly one request,
    POST /models/{id}/predict with the body [{indices: [x]}]; what the
    component stores as the prediction is [predictions[0]] of the answer
    to that request and what it displays is that number formatted with
    [toFixed(4)].  The chart shows the backend's original and projected
    predictions one after the other, and the prediction cell of every row
    of the table is the backend's prediction for that row, formatted. *)
Theorem displayed_prediction_is_backend_value
    (num : Type) (parseFloat : string -> option num)
    (toFixed : num -> nat -> string) (abs_diff : num -> num -> num)
    (backend : ModelResults.request -> promise ModelResults.prediction_data)
    (modelId : string) (s : ModelResults.state) (x : num)
    (result : ModelResults.prediction_data)
    (Hinput : ModelResults.predictionInput s ≠ EmptyString)
    (Hparse : parseFloat (ModelResults.predictionInput s) = Some x)
    (Hanswer :
       backend (ModelResults.Request "POST" ("/models/" +:+ modelId +:+ "/predict")
                  (Some [x])) = inr result) :
  let s' := ModelResults.handlePredict parseFloat backend modelId s in
  ModelResults.network s' =
    ModelResults.Request "POST" ("/models/" +:+ modelId +:+ "/predict") (Some [x])
      :: ModelResults.network s ∧
  ModelResults.customPrediction s' =
    Some (ModelResults.Custom x (ModelResults.predictions result !! 0%nat)) ∧
  ModelResults.shown_prediction toFixed s' =
    (fun p => toFixed p 4%nat) <$> (ModelResults.predictions result !! 0%nat) ∧
  ModelResults.loaded s' = ModelResults.loaded s ∧
  (∀ p, ModelResults.loaded s = Some p →
     ModelResults.chart_predictions s' =
       Some (ModelResults.series_predictions (ModelResults.original p) ++
             ModelResults.series_predictions (ModelResults.projection p))%list ∧
     ∀ i row, ModelResults.table toFixed abs_diff s' !! i = Some (Some row) →
       ∃ pred, ModelResults.series_predictions (ModelResults.original p) !! i
                 = Some pred ∧ row.1.2 = toFixed pred 4%nat).
Proof.
  intros s'. subst s'. unfold ModelResults.handlePredict.
  simpl. rewrite Hparse.
  destruct (ModelResults.predictionInput s) as [|c rest] eqn:Hin; [done |].
  unfold ModelResults.predict. simpl. rewrite Hanswer. simpl.
  split; [reflexivity |].
  split; [by destruct (ModelResults.predictions result) |].
  split.
  { unfold ModelResults.shown_prediction. simpl.
    by destruct (ModelResults.predictions result). }
  split; [reflexivity |].
  intros p Hp. unfold ModelResults.chart_predictions, ModelResults.table. simpl.
  rewrite Hp. simpl. split; [reflexivity |].
  intros i row Hrow.
  apply list_lookup_imap_Some in Hrow as (idx & _ & Hrow).
  unfold ModelResults.table_row in Hrow.
  destruct (ModelResults.actual_values (ModelResults.original p) !! i); [| done].
  destruct (ModelResults.series_predictions (ModelResults.original p) !! i) as [pred|];
    [| done].
  simpl in Hrow. injection Hrow as ->. by exists pred.
Qed.

Lemma displayed_prediction_is_backend_value_witness :
  let parse := fun v : string => if String.eqb v "12" then Some 12 else None in
  let fmt := fun (v : Z) (_ : nat) => if v =? 77 then "77.0000" else "?" in
  let answer := fun _ : ModelResults.request =>
    inr (ModelResults.PredictionData [77; 5]
           (ModelResults.Series [] [] []) (ModelResults.Series [] [] [])) in
  let s := ModelResults.State None "12" None false None [] in
  ModelResults.shown_prediction fmt
    (ModelResults.handlePredict parse answer "3" s) = Some "77.0000".
Proof.
  intros parse fmt answer s.
  pose proof (displayed_prediction_is_backend_value Z parse fmt
                (fun a b => Z.abs (a - b)) answer "3" s 12 _
                ltac:(discriminate) eq_refl eq_refl) as (_ & _ & Hshown & _).
  exact Hshown.
Defined.

(** ** Timers *)

Section TimerFacts.
Context {C : Type}.
Implicit Types (k : clock C).

Lemma polling_clearInterval h k : polling h (clearInterval h k) = false.
Proof.
  unfold polling, clearInterval; simpl.
  induction (pending k) as [|t l IH]; [reflexivity |].
  rewrite filter_cons. case_decide as Hh; simpl; [| exact IH].
  rewrite IH, orb_false_r. by apply Nat.eqb_neq.
Qed.

Lemma run_S {Page} (exec : C -> Page * clock C -> Page * clock C) n w :
  run exec (S n) w =
  match step exec w with
  | Some w' => run exec n w'
  | None => w
  end.
Proof. reflexivity. Qed.

End TimerFacts.

Lemma ticks_S t0 d j :
  ticks t0 d (S j) = (ticks t0 d j ++ [t0 + d * Z.of_nat (S j)])%list.
Proof. unfold ticks. by rewrite seq_S, fmap_app. Qed.

Lemma ticks_length t0 d j : length (ticks t0 d j) = j.
Proof. unfold ticks. by rewrite length_fmap, length_seq. Qed.

Lemma ticks_lookup t0 d j i :
  (i < j)%nat → ticks t0 d j !! i = Some (t0 + d * Z.of_nat (S i)).
Proof.
  intros Hi. unfold ticks. rewrite list_lookup_fmap, lookup_seq_lt by done.
  reflexivity.
Qed.

Lemma ticks_gaps t0 d j : successive_gaps (ticks t0 d j) d.
Proof.
  intros i a b Ha Hb.
  assert (Hlt : (S i < j)%nat).
  { apply lookup_lt_Some in Hb. by rewrite ticks_length in Hb. }
  rewrite ticks_lookup in Ha by lia. rewrite ticks_lookup in Hb by lia.
  injection Ha as <-. injection Hb as <-. lia.
Qed.

Lemma ticks_gaps_from t0 d j : successive_gaps (t0 :: ticks t0 d j) d.
Proof.
  intros [|i] a b Ha Hb; simpl in *.
  - injection Ha as <-. destruct j; [done |].
    rewrite ticks_lookup in Hb by lia. injection Hb as <-. lia.
  - by apply (ticks_gaps t0 d j i).
Qed.

(** ** The polling loop of the EV Models page *)

Section EvLoop.
Variable getModel : nat -> promise bool.
Variables (t0 modelId : Z) (vehicle : option Z).

Local Abbreviation poll_timer d :=
  (Timer 1 d (Some 5000) (Models.Poll 1 modelId vehicle)).
Local Abbreviation stop_timer :=
  (Timer 2 (t0 + 300000) None (Models.StopPolling 1)).

Lemma ev_inv_started : ev_inv t0 modelId vehicle 0 (ev_started t0 modelId vehicle).
Proof.
  exists 0%nat. split; [lia |]. split; [reflexivity |].
  left. split; [reflexivity |].
  unfold ev_started, Models.handleTrainModel; simpl.
  repeat f_equal; lia.
Qed.

Lemma ev_inv_step n w :
  ev_inv t0 modelId vehicle n w →
  match step (Models.exec getModel) w with
  | Some w' => ev_inv t0 modelId vehicle (S n) w'
  | None => pending w.2 = []
  end.
Proof.
  destruct w as [s k]. intros (j & Hj & Hlog & Hphase); cbn [fst snd] in *.
  unfold step, fire; cbn [fst snd].
  destruct Hphase as [[-> Hp] | [[-> Hp] | Hp]]; rewrite Hp.
  - remember (t0 + 5000 * Z.of_nat (S n)) as d eqn:Hd. simpl.
    destruct (Z.leb_spec d (t0 + 300000)) as [Hle | Hgt]; simpl.
    + (* the interval fires *)
      assert (Hn : (S n ≤ 60)%nat) by lia.
      assert (Hlen : length (Models.poll_times s) = n).
      { rewrite <- length_rev, Hlog. apply ticks_length. }
      assert (Hlog' : rev (d :: Models.poll_times s) = ticks t0 5000 (S n)).
      { simpl. rewrite Hlog, Hd. symmetry. apply ticks_S. }
      rewrite Hlen.
      destruct (getModel n) as [err | [|]]; simpl.
      * exists (S n). split; [lia |]. split; [exact Hlog' |]. right. left. done.
      * exists (S n). split; [lia |]. split; [exact Hlog' |]. right. left. done.
      * exists (S n). split; [lia |]. split; [exact Hlog' |]. left.
        split; [done |].
        replace (d + 5000) with (t0 + 5000 * Z.of_nat (S (S n)))
          by (clear -Hd; lia).
        done.
    + (* the timeout fires *)
      exists n. split; [lia |]. split; [exact Hlog |]. right. right. done.
  - simpl. exists n. split; [lia |]. split; [exact Hlog |]. right. right. done.
  - done.
Qed.

Lemma ev_inv_run n :
  ∃ m, (m ≤ n)%nat ∧ ev_inv t0 modelId vehicle m (ev_run getModel n t0 modelId vehicle) ∧
       (m < n → pending (ev_run getModel n t0 modelId vehicle).2 = [])%nat.
Proof.
  unfold ev_run.
  pose proof ev_inv_started as H0.
  generalize dependent (ev_started t0 modelId vehicle).
  cut (∀ n i w, ev_inv t0 modelId vehicle i w →
         ∃ m, (i ≤ m ≤ i + n)%nat ∧ ev_inv t0 modelId vehicle m (run (Models.exec getModel) n w) ∧
              (m < i + n → pending (run (Models.exec getModel) n w).2 = [])%nat).
  { intros Hgen w Hw. destruct (Hgen n 0%nat w Hw) as (m & ? & ? & ?).
    exists m. split; [lia |]. split; [done |]. simpl in *. done. }
  clear. intros n. induction n as [|n IH]; intros i w Hw; simpl.
  - exists i. split; [lia |]. split; [done |]. lia.
  - pose proof (ev_inv_step i w Hw) as Hstep.
    destruct (step (Models.exec getModel) w) as [w' |].
    + destruct (IH (S i) w' Hstep) as (m & ? & ? & Hm).
      exists m. split; [lia |]. split; [done |]. intros ?. apply Hm. lia.
    + exists i. split; [lia |]. split; [done |]. done.
Qed.

End EvLoop.

(** ** The polling loop of the Nissan training form *)

Lemma unfinished_status (m : model_info) :
  String.eqb (training_status m) "completed"
  || String.eqb (training_status m) "failed" = false ↔
  unfinished (inr m).
Proof.
  unfold unfinished. rewrite orb_false_iff.
  by rewrite !String.eqb_neq.
Qed.

Section NtLoop.
Variable getModelById : nat -> promise model_info.
Variables (t0 : Z) (index target : string) (result : model_info).
Hypothesis index_chosen : index ≠ EmptyString.
Hypothesis target_chosen : target ≠ EmptyString.

Local Abbreviation poll_timer d :=
  (Timer 1 d (Some 3000) (ModelTraining.Poll 1 (model_id result))).

Lemma nt_started_eq :
  ∃ s, nt_started t0 index target result =
         (s, Clock t0 2 [poll_timer (t0 + 3000)]) ∧
       ModelTraining.poll_times s = [].
Proof.
  unfold nt_started, ModelTraining.handleTrainModel; simpl.
  destruct index; [done |]. destruct target; [done |]. simpl.
  eexists. split; reflexivity.
Qed.

Lemma nt_inv_started : nt_inv getModelById t0 result 0 (nt_started t0 index target result).
Proof.
  destruct nt_started_eq as (s & -> & Hs).
  exists 0%nat. simpl. rewrite Hs. split; [reflexivity |].
  left. split; [reflexivity |]. split; [| intros; lia].
  replace (t0 + 3000 * Z.of_nat 1) with (t0 + 3000) by lia. done.
Qed.

Lemma nt_inv_step n w :
  nt_inv getModelById t0 result n w →
  match step (ModelTraining.exec getModelById) w with
  | Some w' => nt_inv getModelById t0 result (S n) w'
  | None => pending w.2 = []
  end.
Proof.
  destruct w as [s k]. intros (j & Hlog & Hphase); cbn [fst snd] in *.
  unfold step, fire; cbn [fst snd].
  destruct Hphase as [(-> & Hp & Hun) | [Hp _]]; rewrite Hp; [| done].
  remember (t0 + 3000 * Z.of_nat (S n)) as d eqn:Hd. simpl.
  assert (Hlen : length (ModelTraining.poll_times s) = n).
  { rewrite <- length_rev, Hlog. apply ticks_length. }
  assert (Hlog' : rev (d :: ModelTraining.poll_times s) = ticks t0 3000 (S n)).
  { simpl. rewrite Hlog, Hd. symmetry. apply ticks_S. }
  assert (Hnext : d + 3000 = t0 + 3000 * Z.of_nat (S (S n))) by lia.
  rewrite Hlen.
  destruct (getModelById n) as [err | m] eqn:Hreply; simpl.
  - exists (S n). split; [exact Hlog' |]. left.
    split; [done |]. split; [by rewrite Hnext |].
    intros i Hi. destruct (decide (i = n)) as [-> | ?]; [by rewrite Hreply |].
    apply Hun. lia.
  - destruct (String.eqb (training_status m) "completed"
              || String.eqb (training_status m) "failed") eqn:Hfinal.
    + exists (S n). split.
      { destruct (String.eqb (training_status m) "completed"),
          (String.eqb (training_status m) "failed"); exact Hlog'. }
      right. split; [reflexivity |]. exists n. split; [lia |].
      rewrite Hreply, <- unfinished_status, Hfinal. done.
    + exists (S n). split; [exact Hlog' |]. left.
      split; [done |]. split; [by rewrite Hnext |].
      intros i Hi. destruct (decide (i = n)) as [-> | ?].
      * rewrite Hreply. by apply unfinished_status.
      * apply Hun. lia.
Qed.

Lemma nt_inv_run n :
  ∃ m, nt_inv getModelById t0 result m (nt_run getModelById n t0 index target result).
Proof.
  unfold nt_run. pose proof nt_inv_started as H0.
  generalize dependent (nt_started t0 index target result).
  generalize 0%nat.
  induction n as [|n IH]; intros i w Hw; simpl; [by exists i |].
  pose proof (nt_inv_step i w Hw) as Hstep.
  destruct (step (ModelTraining.exec getModelById) w) as [w' |].
  - by apply (IH (S i)).
  - by exists i.
Qed.

(** With a backend that never reports the end of the training the loop
    never stops: after any number of timer events that many requests went
    out and the interval is still armed. *)
Lemma nt_unfinished_run n :
  (∀ i, unfinished (getModelById i)) →
  nt_inv getModelById t0 result n (nt_run getModelById n t0 index target result) ∧
  pending (nt_run getModelById n t0 index target result).2 =
    [poll_timer (t0 + 3000 * Z.of_nat (S n))].
Proof.
  intros Hun. unfold nt_run. pose proof nt_inv_started as H0.
  generalize dependent (nt_started t0 index target result).
  cut (∀ n i w, nt_inv getModelById t0 result i w →
         pending w.2 = [poll_timer (t0 + 3000 * Z.of_nat (S i))] →
         nt_inv getModelById t0 result (i + n) (run (ModelTraining.exec getModelById) n w) ∧
         pending (run (ModelTraining.exec getModelById) n w).2 =
           [poll_timer (t0 + 3000 * Z.of_nat (S (i + n)))]).
  { intros Hgen w Hw. apply (Hgen n 0%nat w Hw).
    destruct Hw as (j & _ & [(-> & Hp & _) | [_ (i & _ & Hi)]]); [done |].
    destruct Hi. apply Hun. }
  clear n. intros n. induction n as [|n IH]; intros i w Hw Hp; simpl.
  - rewrite Nat.add_0_r. done.
  - pose proof (nt_inv_step i w Hw) as Hstep.
    destruct (step (ModelTraining.exec getModelById) w) as [w' |].
    + replace (i + S n)%nat with (S i + n)%nat by lia.
      apply IH; [done |].
      destruct Hstep as (j & _ & [(-> & Hp' & _) | [_ (i' & _ & Hi)]]); [done |].
      destruct Hi. apply Hun.
    + by rewrite Hp in Hstep.
Qed.

End NtLoop.

(** ** The refresh interval of the Nissan models list *)

Section MlLoop.
Variable getModels : nat -> promise (list model_info).
Variables (t0 : Z) (fileId : option Z) (shown : list model_info).

Local Abbreviation tick_timer d :=
  (Timer 1 d (Some 5000) (ModelsList.Tick shown fileId)).

Lemma refresh_times_loadModels fId t s :
  ModelsList.refresh_times (ModelsList.loadModels getModels fId t s) =
  t :: ModelsList.refresh_times s.
Proof.
  unfold ModelsList.loadModels.
  by destruct (getModels (length (ModelsList.refresh_times s))).
Qed.

Lemma ml_inv_started : ml_inv t0 fileId shown 0 (ml_started getModels t0 fileId shown).2.
Proof.
  unfold ml_inv, ml_started, ModelsList.effect; simpl.
  split; [by replace (t0 + 5000 * 1) with (t0 + 5000) by lia |].
  rewrite refresh_times_loadModels. simpl.
  by destruct (existsb ModelsList.in_training shown).
Qed.

Lemma ml_inv_step n w :
  ml_inv t0 fileId shown n w →
  ∃ w', step (ModelsList.exec getModels) w = Some w' ∧ ml_inv t0 fileId shown (S n) w'.
Proof.
  destruct w as [s k]. intros [Hp Hlog]; cbn [fst snd] in *.
  unfold step, fire; cbn [fst snd]. rewrite Hp.
  remember (t0 + 5000 * Z.of_nat (S n)) as d eqn:Hd. simpl.
  assert (Hnext : d + 5000 = t0 + 5000 * Z.of_nat (S (S n))) by lia.
  eexists. split; [reflexivity |]. unfold ml_inv.
  destruct (existsb ModelsList.in_training shown); simpl.
  - split; [by rewrite Hnext |].
    rewrite refresh_times_loadModels, ticks_S. simpl. rewrite Hlog, Hd. done.
  - split; [by rewrite Hnext |]. done.
Qed.

Lemma ml_inv_run n : ml_inv t0 fileId shown n (ml_run getModels n t0 fileId shown).
Proof.
  unfold ml_run. pose proof ml_inv_started as H0.
  generalize dependent (ml_started getModels t0 fileId shown).2.
  cut (∀ n i w, ml_inv t0 fileId shown i w → ml_inv t0 fileId shown (i + n) (run (ModelsList.exec getModels) n w)).
  { intros Hgen w Hw. apply (Hgen n 0%nat w Hw). }
  clear n. intros n. induction n as [|n IH]; intros i w Hw; simpl.
  - by rewrite Nat.add_0_r.
  - destruct (ml_inv_step i w Hw) as (w' & -> & Hw').
    replace (i + S n)%nat with (S i + n)%nat by lia. by apply IH.
Qed.

(** A tick that does not refresh leaves the React state alone. *)
Lemma ml_idle_run n :
  existsb ModelsList.in_training shown = false →
  (ml_run getModels n t0 fileId shown).1 = (ml_started getModels t0 fileId shown).2.1.
Proof.
  intros Hidle. unfold ml_run.
  pose proof ml_inv_started as H0.
  generalize dependent (ml_started getModels t0 fileId shown).2.
  cut (∀ n i w, ml_inv t0 fileId shown i w → (run (ModelsList.exec getModels) n w).1 = w.1).
  { intros Hgen w Hw. apply (Hgen n 0%nat w Hw). }
  clear n. intros n. induction n as [|n IH]; intros i w Hw; simpl; [done |].
  destruct (ml_inv_step i w Hw) as (w' & Hstep & Hw'). rewrite Hstep.
  rewrite (IH (S i) w' Hw').
  destruct w as [s k]. destruct Hw as [Hp _]. simpl in Hp.
  unfold step, fire in Hstep. simpl in Hstep. rewrite Hp in Hstep.
  simpl in Hstep. rewrite Hidle in Hstep. by injection Hstep as <-.
Qed.

End MlLoop.

(** ** The three loops together *)

Lemma ev_untrained_run getModel t0 modelId vehicle n :
  (∀ i, getModel i = inr false) → (n ≤ 59)%nat →
  pending (ev_run getModel n t0 modelId vehicle).2 =
    [Timer 1 (t0 + 5000 * Z.of_nat (S n)) (Some 5000) (Models.Poll 1 modelId vehicle);
     Timer 2 (t0 + 300000) None (Models.StopPolling 1)] ∧
  rev (Models.poll_times (ev_run getModel n t0 modelId vehicle).1) = ticks t0 5000 n.
Proof.
  intros Hno. unfold ev_run.
  assert (H0 : pending (ev_started t0 modelId vehicle).2 =
    [Timer 1 (t0 + 5000 * Z.of_nat 1) (Some 5000) (Models.Poll 1 modelId vehicle);
     Timer 2 (t0 + 300000) None (Models.StopPolling 1)] ∧
    rev (Models.poll_times (ev_started t0 modelId vehicle).1) = ticks t0 5000 0).
  { split; [| reflexivity]. unfold ev_started; simpl.
    by replace (t0 + 5000 * 1) with (t0 + 5000) by lia. }
  generalize dependent (ev_started t0 modelId vehicle).
  cut (∀ n i w, (i + n ≤ 59)%nat →
    pending w.2 =
      [Timer 1 (t0 + 5000 * Z.of_nat (S i)) (Some 5000) (Models.Poll 1 modelId vehicle);
       Timer 2 (t0 + 300000) None (Models.StopPolling 1)] ∧
    rev (Models.poll_times w.1) = ticks t0 5000 i →
    pending (run (Models.exec getModel) n w).2 =
      [Timer 1 (t0 + 5000 * Z.of_nat (S (i + n))) (Some 5000)
         (Models.Poll 1 modelId vehicle);
       Timer 2 (t0 + 300000) None (Models.StopPolling 1)] ∧
    rev (Models.poll_times (run (Models.exec getModel) n w).1) = ticks t0 5000 (i + n)).
  { intros Hgen w Hw Hn. apply (Hgen n 0%nat w); [lia | done]. }
  clear n. intros n. induction n as [|n IH]; intros i [s k] Hi [Hp Hlog];
    cbn [fst snd] in *.
  - rewrite Nat.add_0_r. done.
  - replace (i + S n)%nat with (S i + n)%nat by lia.
    remember (t0 + 5000 * Z.of_nat (S i)) as d eqn:Hd.
    assert (Hnext : d + 5000 = t0 + 5000 * Z.of_nat (S (S i))) by lia.
    rewrite run_S. unfold step, fire; cbn [fst snd]. rewrite Hp. simpl.
    destruct (Z.leb_spec d (t0 + 300000)) as [_ | Hgt]; [| lia]. simpl.
    rewrite Hno. simpl. apply (IH (S i)); [lia |]. cbn [fst snd pending].
    split; [by rewrite Hnext |].
    change (Models.poll_times (Models.send d (Models.GetModel modelId) s))
      with (d :: Models.poll_times s).
    simpl. rewrite Hlog, Hd. symmetry. apply ticks_S.
Qed.

(** C2.  Every training-status polling loop is a fixed-interval timer:
    the status requests of the EV Models page go out at
    [t0 + 5000], [t0 + 10000], ..., those of the Nissan training form at
    [t0 + 3000], [t0 + 6000], ..., and the refreshes of the Nissan models
    list at [t0], [t0 + 5000], ...; successive requests are exactly the
    period apart, and the interval that is armed keeps that period after
    every tick, whatever the backend answered and however many polls were
    rejected. *)
Theorem polling_loops_fixed_interval (t0 : Z) (n : nat) :
  (∀ getModel modelId vehicle,
     let w := ev_run getModel n t0 modelId vehicle in
     (∃ j, rev (Models.poll_times w.1) = ticks t0 5000 j) ∧
     successive_gaps (rev (Models.poll_times w.1)) 5000 ∧
     (∀ t, t ∈ pending w.2 → handle t = 1%nat → period t = Some 5000) ∧
     ((∀ i, getModel i = inr false) → (n ≤ 59)%nat →
        length (Models.poll_times w.1) = n)) ∧
  (∀ getModelById index target result,
     index ≠ EmptyString → target ≠ EmptyString →
     let w := nt_run getModelById n t0 index target result in
     (∃ j, rev (ModelTraining.poll_times w.1) = ticks t0 3000 j) ∧
     successive_gaps (rev (ModelTraining.poll_times w.1)) 3000 ∧
     (∀ t, t ∈ pending w.2 → period t = Some 3000) ∧
     ((∀ i, unfinished (getModelById i)) →
        length (ModelTraining.poll_times w.1) = n)) ∧
  (∀ getModels fileId shown,
     let w := ml_run getModels n t0 fileId shown in
     (∃ j, rev (ModelsList.refresh_times w.1) = t0 :: ticks t0 5000 j) ∧
     successive_gaps (rev (ModelsList.refresh_times w.1)) 5000 ∧
     (∀ t, t ∈ pending w.2 → period t = Some 5000) ∧
     (existsb ModelsList.in_training shown = true →
        length (ModelsList.refresh_times w.1) = S n)).
Proof.
  split; [| split].
  - intros getModel modelId vehicle w. subst w.
    destruct (ev_inv_run getModel t0 modelId vehicle n)
      as (m & _ & (j & _ & Hlog & Hphase) & _).
    split; [by exists j |].
    split; [rewrite Hlog; apply ticks_gaps |].
    split.
    + intros t Ht Hh.
      destruct Hphase as [[_ Hp] | [[_ Hp] | Hp]]; rewrite Hp in Ht.
      * apply elem_of_cons in Ht as [-> | Ht]; [done |].
        apply list_elem_of_singleton in Ht as ->. done.
      * apply list_elem_of_singleton in Ht as ->. done.
      * by apply elem_of_nil in Ht.
    + intros Hno Hn.
      destruct (ev_untrained_run getModel t0 modelId vehicle n Hno Hn) as [_ Hl].
      rewrite <- length_rev, Hl. apply ticks_length.
  - intros getModelById index target result Hi Ht w. subst w.
    destruct (nt_inv_run getModelById t0 index target result Hi Ht n)
      as (m & j & Hlog & Hphase).
    split; [by exists j |].
    split; [rewrite Hlog; apply ticks_gaps |].
    split.
    + intros t Hin.
      destruct Hphase as [(_ & Hp & _) | [Hp _]]; rewrite Hp in Hin.
      * apply list_elem_of_singleton in Hin as ->. done.
      * by apply elem_of_nil in Hin.
    + intros Hun.
      destruct (nt_unfinished_run getModelById t0 index target result Hi Ht n Hun)
        as [(j' & Hlog' & Hphase') _].
      rewrite <- length_rev, Hlog', ticks_length.
      destruct Hphase' as [(-> & _) | [_ (i & _ & Hfin)]]; [done |].
      destruct Hfin. apply Hun.
  - intros getModels fileId shown w. subst w.
    destruct (ml_inv_run getModels t0 fileId shown n) as [Hp Hlog].
    split.
    { destruct (existsb ModelsList.in_training shown);
        [by exists n | by exists 0%nat]. }
    split.
    { rewrite Hlog. destruct (existsb ModelsList.in_training shown).
      - apply ticks_gaps_from.
      - apply (ticks_gaps_from t0 5000 0). }
    split.
    + intros t Hin. rewrite Hp in Hin.
      apply list_elem_of_singleton in Hin as ->. done.
    + intros Htr. rewrite Htr in Hlog.
      rewrite <- length_rev, Hlog. simpl. by rewrite ticks_length.
Qed.

Lemma polling_loops_fixed_interval_witness :
  let flaky := fun i : nat =>
    match i with
    | 0%nat => inl (AxiosError None None "Network Error")
    | 1%nat => inr (ModelInfo 4 "training")
    | _ => inr (ModelInfo 4 "completed")
    end in
  let w := nt_run flaky 5 0 "day" "soh" (ModelInfo 4 "pending") in
  rev (ModelTraining.poll_times w.1) = [3000; 6000; 9000] ∧
  successive_gaps (rev (ModelTraining.poll_times w.1)) 3000.
Proof.
  intros flaky w. split; [reflexivity |].
  apply (polling_loops_fixed_interval 0 5).
  - discriminate.
  - discriminate.
Defined.

(** ** How the loops end *)

Lemma ev_failed_poll_clears getModel s k h modelId vehicle err :
  getModel (length (Models.poll_times s)) = inl err →
  polling h (Models.exec getModel (Models.Poll h modelId vehicle) (s, k)).2 = false ∧
  Models.trainingModel
    (Models.exec getModel (Models.Poll h modelId vehicle) (s, k)).1 = None.
Proof.
  intros Hreply. unfold Models.exec. rewrite Hreply. simpl.
  split; [apply polling_clearInterval | reflexivity].
Qed.

Lemma ev_over_after_61 getModel t0 modelId vehicle n :
  (61 ≤ n)%nat → pending (ev_run getModel n t0 modelId vehicle).2 = [].
Proof.
  intros Hn.
  destruct (ev_inv_run getModel t0 modelId vehicle n)
    as (m & Hm & (j & Hj & _ & Hphase) & Hdone).
  destruct (decide (m < n)%nat) as [Hlt | Hge]; [by apply Hdone |].
  destruct Hphase as [[-> _] | [[-> _] | Hp]]; [lia | lia | done].
Qed.

Lemma ev_polls_before_timeout getModel t0 modelId vehicle n t :
  t ∈ Models.poll_times (ev_run getModel n t0 modelId vehicle).1 →
  t0 < t ≤ t0 + 300000.
Proof.
  intros Hin.
  destruct (ev_inv_run getModel t0 modelId vehicle n)
    as (m & _ & (j & Hj & Hlog & _) & _).
  apply list_elem_of_In, in_rev, list_elem_of_In in Hin. rewrite Hlog in Hin.
  unfold ticks in Hin. apply list_elem_of_fmap in Hin as (i & -> & Hi).
  apply elem_of_seq in Hi. lia.
Qed.

(** C1, loop by loop.  On the EV Models page a rejected status request
    ends the loop at once (the interval is cleared and the training flag
    reset), and the five-minute timeout ends it in any case: no status
    request goes out later than 300000 ms after the start, and after 61
    timer events nothing is armed any more, whatever the backend answers.
    The Nissan training form has neither: a rejected status request
    changes nothing, and for as long as no answer carries a final status
    the interval stays armed and one request goes out per tick. *)
Theorem polling_loop_cancellation (t0 : Z) (n : nat) :
  (∀ getModel modelId vehicle,
     (∀ s k h err,
        getModel (length (Models.poll_times s)) = inl err →
        polling h (Models.exec getModel (Models.Poll h modelId vehicle) (s, k)).2
          = false ∧
        Models.trainingModel
          (Models.exec getModel (Models.Poll h modelId vehicle) (s, k)).1 = None) ∧
     (∀ t, t ∈ Models.poll_times (ev_run getModel n t0 modelId vehicle).1 →
           t ≤ t0 + 300000) ∧
     ((61 ≤ n)%nat → pending (ev_run getModel n t0 modelId vehicle).2 = [])) ∧
  (∀ getModelById index target result,
     index ≠ EmptyString → target ≠ EmptyString →
     (∀ s k h id err,
        getModelById (length (ModelTraining.poll_times s)) = inl err →
        (ModelTraining.exec getModelById (ModelTraining.Poll h id) (s, k)).2 = k ∧
        (ModelTraining.exec getModelById (ModelTraining.Poll h id) (s, k)).1
          = ModelTraining.send (now k) (ModelTraining.GetModelById id) s) ∧
     ((∀ i, unfinished (getModelById i)) →
        polling 1 (nt_run getModelById n t0 index target result).2 = true ∧
        length (ModelTraining.poll_times
                  (nt_run getModelById n t0 index target result).1) = n)).
Proof.
  split.
  - intros getModel modelId vehicle. split; [| split].
    + intros s k h err. apply ev_failed_poll_clears.
    + intros t Hin. by apply ev_polls_before_timeout in Hin as [_ ?].
    + apply ev_over_after_61.
  - intros getModelById index target result Hi Ht. split.
    + intros s k h id err Hreply. unfold ModelTraining.exec. by rewrite Hreply.
    + intros Hun.
      destruct (nt_unfinished_run getModelById t0 index target result Hi Ht n Hun)
        as [(j & Hlog & Hphase) Hp].
      split; [unfold polling; by rewrite Hp |].
      rewrite <- length_rev, Hlog, ticks_length.
      destruct Hphase as [(-> & _) | [_ (i & _ & Hfin)]]; [done |].
      destruct Hfin. apply Hun.
Qed.

Lemma polling_loop_cancellation_witness :
  let failing := fun _ : nat =>
    inl (AxiosError (Some 502) None "Bad Gateway") : promise model_info in
  polling 1 (nt_run failing 100 0 "day" "soh" (ModelInfo 4 "pending")).2 = true ∧
  pending (ev_run (fun _ => inr false) 61 0 4 None).2 = [].
Proof.
  intros failing. split.
  - apply (polling_loop_cancellation 0 100).
    + discriminate.
    + discriminate.
    + intros i. exact I.
  - apply (polling_loop_cancellation 0 61). lia.
Defined.

(** The EV loop is cancelled: when every status request is rejected, the
    interval is gone after the first tick. *)
Lemma ev_loop_is_cancelled_on_error :
  ¬ ev_never_cancelled (fun _ => inl (AxiosError None None "Network Error")).
Proof.
  intros Hnever.
  specialize (Hnever (fun i => ltac:(discriminate)) 1%nat 0 4 None).
  vm_compute in Hnever. discriminate Hnever.
Qed.

(** The cleanup of the training form clears the handle the effect
    captured; the effect ran in a render where no polling had started. *)
Lemma nt_cleanup_of_mount_effect getModelById n t0 index target result :
  ModelTraining.cleanup
    (ModelTraining.pollingInterval (ModelTraining.initial index target))
    (nt_run getModelById n t0 index target result)
  = nt_run getModelById n t0 index target result.
Proof. reflexivity. Qed.

(** ** The models list reads the list of the mount render *)

Lemma ml_tick_refreshes getModels captured fileId s k :
  ModelsList.refresh_times
    (ModelsList.exec getModels (ModelsList.Tick captured fileId) (s, k)).1 =
  if existsb ModelsList.in_training captured
  then now k :: ModelsList.refresh_times s
  else ModelsList.refresh_times s.
Proof.
  unfold ModelsList.exec.
  destruct (existsb ModelsList.in_training captured); [| reflexivity].
  apply refresh_times_loadModels.
Qed.

(** C7, as the code runs.  After the component mounted, the list that is
    displayed is the one the backend sent ([l], which may hold models in
    training), the interval is armed and ticks every 5000 ms, and no tick
    ever requests a refresh: the only request is the one of the mount.
    The callback tests the [models] of the mount render, the empty list. *)
Theorem models_list_ticks_never_refresh
    (t0 : Z) (fileId : option Z) (n : nat) (l : list model_info)
    (later : nat -> promise (list model_info)) :
  let getModels := fun i => match i with O => inr l | S i => later i end in
  let w := ml_run getModels n t0 fileId [] in
  ModelsList.models w.1 = l ∧
  ModelsList.refresh_times w.1 = [t0] ∧
  pending w.2 =
    [Timer 1 (t0 + 5000 * Z.of_nat (S n)) (Some 5000) (ModelsList.Tick [] fileId)].
Proof.
  intros getModels w. subst w.
  destruct (ml_inv_run getModels t0 fileId [] n) as [Hp Hlog].
  rewrite (ml_idle_run getModels t0 fileId [] n eq_refl) in *.
  split; [reflexivity |]. split; [reflexivity | exact Hp].
Qed.

(** The same at one input: a models list with one model in training, ten
    ticks later. *)
Lemma models_list_ticks_never_refresh_example :
  let training := ModelInfo 1 "training" in
  let w := ml_run (fun _ => inr [training]) 10 0 (Some 3) [] in
  existsb ModelsList.in_training (ModelsList.models w.1) = true ∧
  now w.2 = 50000 ∧
  ModelsList.network w.1 = [(0, ModelsList.GetModels (Some 3))].
Proof. repeat split. Qed.

(** * Further properties *)

(** ** Sessions *)

Lemma nissan_initAuth_loading (User : Type) jwtDecode now_ms (me : promise User) b s :
  Nissan.AuthContext.loading
    (Nissan.AuthContext.initAuth jwtDecode now_ms me b s).1.1 = false.
Proof.
  unfold Nissan.AuthContext.initAuth.
  destruct (Js.truthy _); [| reflexivity].
  destruct (jwtDecode _) as [p|]; [| reflexivity].
  destruct (Js.lt_undef _ _); [reflexivity |].
  by destruct (Nissan.authService.getCurrentUser me b) as [[[?|?] ?] ?].
Qed.

(** X1.  After the mount effect of either AuthProvider the provider and
    the store agree: the user counts as authenticated exactly when the
    store still holds a token, and the provider is no longer loading. *)
Theorem mount_leaves_flag_and_store_in_step
    (User : Type) (jwtDecode : string -> option jwt_payload) (now_ms : Z)
    (me : promise User) (b : browser) :
  let n := Nissan.AuthContext.initAuth jwtDecode now_ms me b
             Nissan.AuthContext.initial in
  let e := Ev.AuthContext.init me b Ev.AuthContext.initial in
  Nissan.AuthContext.isAuthenticated n.1.1 = Nissan.authService.isAuthenticated n.1.2 ∧
  Nissan.AuthContext.loading n.1.1 = false ∧
  Ev.AuthContext.isAuthenticated e.1.1 = Js.truthy (getItem "token" e.1.2) ∧
  Ev.AuthContext.loading e.1.1 = false.
Proof.
  intros n e. subst n e.
  split; [| split; [apply nissan_initAuth_loading |]].
  - unfold Nissan.AuthContext.initAuth, Nissan.authService.isAuthenticated.
    destruct (Js.truthy (getItem "token" b)) eqn:Htr; [| simpl; by rewrite ?Htr].
    destruct (jwtDecode _) as [p|]; simpl;
      [| by rewrite getItem_removeItem].
    destruct (Js.lt_undef _ _); simpl; [by rewrite getItem_removeItem |].
    unfold Nissan.authService.getCurrentUser, apiClient, round_trip.
    destruct me as [err | u]; simpl; [| by rewrite ?Htr].
    pose proof (nissan_rejects User err b) as Hr.
    destruct (nissan_response_interceptor err b) as [r b'].
    simpl in Hr; subst r. simpl. by rewrite getItem_removeItem.
  - unfold Ev.AuthContext.init, Ev.authAPI.getProfile, api, round_trip.
    destruct (Js.truthy (getItem "token" b)) eqn:Htr; [| simpl; by rewrite ?Htr].
    destruct me as [err | u]; simpl; [| by rewrite ?Htr].
    pose proof (ev_rejects User err b) as Hr.
    destruct (ev_response_interceptor err b) as [r b'].
    simpl in Hr; subst r. simpl. by rewrite getItem_removeItem.
Qed.

Lemma route_cases {User : Type} (path : string) (e : Routes.element) :
  Routes.route path = Some e →
  (path, e) ∈ Routes.routes.
Proof.
  unfold Routes.route. intros H.
  destruct (List.find _ Routes.routes) as [[p e']|] eqn:Hfind; [| discriminate].
  apply find_some in Hfind as [Hin Heq]. simpl in *.
  apply String.eqb_eq in Heq. injection H as <-. subst p.
  by apply list_elem_of_In.
Qed.

(** X2.  Once the AuthProvider has finished loading, every fixed route of
    App.js settles after at most one redirect on a page that is rendered,
    never on a spinner or a second redirect; a visitor who is not
    authenticated ends on /login or /register, and an authenticated user
    never ends there. *)
Theorem guards_settle_without_loop
    (User : Type) (s : Nissan.AuthContext.state (User := User))
    (path : string) (e : Routes.element)
    (Hloaded : Nissan.AuthContext.loading s = false)
    (Hroute : Routes.route path = Some e) :
  ∃ final, Routes.settle 1 path s = Some (final, Routes.Children) ∧
    (Nissan.AuthContext.isAuthenticated s = false →
       final = "/login" ∨ final = "/register") ∧
    (Nissan.AuthContext.isAuthenticated s = true →
       final ≠ "/login" ∧ final ≠ "/register").
Proof.
  apply (route_cases (User := User)) in Hroute.
  unfold Routes.routes in Hroute.
  repeat (apply elem_of_cons in Hroute as [[= -> ->] | Hroute];
    [ unfold Routes.settle, Routes.route, Routes.render, Routes.PublicRoute,
        Routes.ProtectedRoute; simpl; rewrite Hloaded;
      destruct (Nissan.AuthContext.isAuthenticated s) eqn:Ha; simpl;
      rewrite ?Hloaded, ?Ha; simpl;
      eexists; (split; [reflexivity |]); split; intros Hx;
      first [ discriminate Hx | by left | by right | by split ] |]).
  by apply elem_of_nil in Hroute.
Qed.

Lemma guards_settle_without_loop_witness :
  Routes.settle 1 "/models"
    (Nissan.AuthContext.State (User := unit) None false None)
  = Some ("/login", Routes.Children).
Proof.
  destruct (guards_settle_without_loop unit
              (Nissan.AuthContext.State None false None) "/models"
              Routes.Protected eq_refl eq_refl) as (final & Hsettle & _ & _).
  vm_compute in Hsettle. injection Hsettle as <-. reflexivity.
Defined.

Lemma sent_authorization A m u ct form (reply : promise A) b :
  let expected :=
    match getItem "token" b with
    | Some (String c t) => Some ("Bearer " +:+ String c t)
    | _ => None
    end in
  headers (apiClient (mkConfig m u ct form) reply b).2 !! "Authorization" = expected ∧
  headers (api (mkConfig m u ct form) reply b).2 !! "Authorization" = expected.
Proof.
  intros expected. subst expected.
  assert (Hn : (apiClient (mkConfig m u ct form) reply b).2
               = nissan_request_interceptor b (mkConfig m u ct form))
    by (unfold apiClient, round_trip; by destruct reply).
  assert (He : (api (mkConfig m u ct form) reply b).2
               = ev_request_interceptor b (mkConfig m u ct form))
    by (unfold api, round_trip; by destruct reply).
  rewrite Hn, He, nissan_request_authorization, ev_request_authorization.
  destruct (getItem "token" b) as [[|c t]|];
    by rewrite ?mkConfig_no_authorization.
Qed.

Lemma rejection_other_than_401 A err b :
  response_status err ≠ Some 401 →
  @nissan_response_interceptor A err b = (inl err, b) ∧
  @ev_response_interceptor A err b = (inl err, b).
Proof.
  intros Hne. unfold nissan_response_interceptor, ev_response_interceptor.
  destruct (response_status err) as [st|]; [| done].
  destruct (Z.eqb_spec st 401) as [-> | Hst]; [done |].
  split; [done |].
  destruct st as [|p|p]; try done.
  do 9 (destruct p as [p|p|]; try done).
Qed.

Lemma round_trip_other_than_401 A cfg err b :
  response_status err ≠ Some 401 →
  apiClient (A := A) cfg (inl err) b
    = (inl err, b, nissan_request_interceptor b cfg) ∧
  api (A := A) cfg (inl err) b = (inl err, b, ev_request_interceptor b cfg).
Proof.
  intros Hne. unfold apiClient, api, round_trip.
  by destruct (rejection_other_than_401 A err b Hne) as [-> ->].
Qed.

Lemma round_trip_fulfilled A cfg (r : A) b :
  apiClient cfg (inr r) b = (inr r, b, nissan_request_interceptor b cfg) ∧
  api cfg (inr r) b = (inr r, b, ev_request_interceptor b cfg).
Proof. split; reflexivity. Qed.

Lemma rejection_401 A err b :
  response_status err = Some 401 →
  @nissan_response_interceptor A err b
    = (inl err, navigate "/login" (removeItem "token" b)) ∧
  @ev_response_interceptor A err b
    = (inl err, navigate "/login" (removeItem "token" b)).
Proof.
  intros H. unfold nissan_response_interceptor, ev_response_interceptor.
  by rewrite H.
Qed.


(** X4.  A login whose token request succeeds but whose profile request
    fails with anything but a 401 leaves the new token in the store
    although nobody is logged in: in the Nissan provider the error is
    thrown on and the user is unchanged, in the EV provider the result is
    a failure and the state is unchanged.  The page stays where it was. *)
Theorem login_keeps_token_when_profile_fails
    (User : Type) (access : string) (err : axios_error) (b : browser)
    (sn : Nissan.AuthContext.state (User := User))
    (se : Ev.AuthContext.state (User := User))
    (Hstatus : response_status err ≠ Some 401) :
  let granted : promise token_response := inr (TokenResponse access) in
  let n := Nissan.AuthContext.login granted (inl err) b sn in
  let e := Ev.AuthContext.login granted (inl err) b se in
  (n.1.1 = inl err ∧ getItem "token" n.2 = Some access ∧ href n.2 = href b ∧
   Nissan.AuthContext.currentUser n.1.2 = Nissan.AuthContext.currentUser sn) ∧
  (e.1.1 = inl (detail_or err "Login failed") ∧
   getItem "token" e.2 = Some access ∧ href e.2 = href b ∧ e.1.2 = se).
Proof.
  intros granted n e. subst n e granted.
  unfold Nissan.AuthContext.login, Ev.AuthContext.login,
    Nissan.authService.login, Nissan.authService.getCurrentUser,
    Ev.authAPI.login, Ev.authAPI.getProfile.
  rewrite (proj2 (round_trip_fulfilled _ _ _ _)). cbn [access_token].
  destruct (round_trip_other_than_401 User (mkConfig "GET" "/auth/me" None false)
              err (setItem "token" access b) Hstatus) as [-> ->].
  simpl. repeat split; apply getItem_setItem.
Qed.

Lemma login_keeps_token_when_profile_fails_witness :
  let err := AxiosError (Some 500) None "Internal Server Error" in
  let b := Browser.Mk ∅ "/login" in
  getItem "token"
    (Ev.AuthContext.login (User := unit) (inr (TokenResponse "abc")) (inl err) b
       Ev.AuthContext.initial).2 = Some "abc".
Proof.
  intros err b.
  apply (login_keeps_token_when_profile_fails unit "abc" err b
           Nissan.AuthContext.initial Ev.AuthContext.initial).
  discriminate.
Defined.

(** X5.  What the shared clients send over a session: after a successful
    login every request carries the token the backend granted; after
    logout, or after any response with status 401, the next request
    carries no Authorization header. *)
Theorem session_requests_follow_the_store
    (User A : Type) (access : string) (u : User) (b : browser)
    (sn : Nissan.AuthContext.state (User := User))
    (se : Ev.AuthContext.state (User := User))
    (m url : string) (ct : option string) (form : bool) (reply : promise A)
    (cfg : config) (err : axios_error)
    (Haccess : access ≠ EmptyString)
    (H401 : response_status err = Some 401) :
  let granted : promise token_response := inr (TokenResponse access) in
  let next := mkConfig m url ct form in
  let auth_n b := headers (apiClient next reply b).2 !! "Authorization" in
  let auth_e b := headers (api next reply b).2 !! "Authorization" in
  auth_n (Nissan.AuthContext.login granted (inr u) b sn).2
    = Some ("Bearer " +:+ access) ∧
  auth_e (Ev.AuthContext.login granted (inr u) b se).2
    = Some ("Bearer " +:+ access) ∧
  auth_n (Nissan.AuthContext.logout b sn).2 = None ∧
  auth_e (Ev.AuthContext.logout b se).2 = None ∧
  auth_n (apiClient (A := A) cfg (inl err) b).1.2 = None ∧
  auth_e (api (A := A) cfg (inl err) b).1.2 = None.
Proof.
  intros granted next auth_n auth_e. subst auth_n auth_e next granted.
  cbv beta.
  assert (Hreq := fun b' => sent_authorization A m url ct form reply b').
  cbv zeta in Hreq.
  assert (Hset : getItem "token" (setItem "token" access b) = Some access)
    by apply getItem_setItem.
  assert (Hdel : getItem "token" (navigate "/login" (removeItem "token" b)) = None)
    by apply getItem_removeItem.
  assert (Hout : getItem "token" (removeItem "token" b) = None)
    by apply getItem_removeItem.
  destruct (rejection_401 A err b H401) as [Hn401 He401].
  split; [| split; [| split; [| split; [| split]]]].
  - destruct (Hreq (Nissan.AuthContext.login (inr (TokenResponse access)) (inr u) b sn).2) as [-> _].
    change (Nissan.AuthContext.login (inr (TokenResponse access)) (inr u) b sn).2
      with (setItem "token" access b).
    rewrite Hset. by destruct access.
  - destruct (Hreq (Ev.AuthContext.login (inr (TokenResponse access)) (inr u) b se).2) as [_ ->].
    change (Ev.AuthContext.login (inr (TokenResponse access)) (inr u) b se).2
      with (setItem "token" access b).
    rewrite Hset. by destruct access.
  - destruct (Hreq (Nissan.AuthContext.logout b sn).2) as [-> _].
    change (Nissan.AuthContext.logout b sn).2 with (removeItem "token" b).
    by rewrite Hout.
  - destruct (Hreq (Ev.AuthContext.logout b se).2) as [_ ->].
    change (Ev.AuthContext.logout b se).2 with (removeItem "token" b).
    by rewrite Hout.
  - destruct (Hreq (apiClient (A := A) cfg (inl err) b).1.2) as [-> _].
    unfold apiClient, round_trip. rewrite Hn401. simpl. by rewrite Hdel.
  - destruct (Hreq (api (A := A) cfg (inl err) b).1.2) as [_ ->].
    unfold api, round_trip. rewrite He401. simpl. by rewrite Hdel.
Qed.

Lemma session_requests_follow_the_store_witness :
  let b := Browser.Mk ∅ "/login" in
  headers
    (api (A := unit) (mkConfig "GET" "/vehicles" None false) (inr tt)
       (Ev.AuthContext.login (User := unit) (inr (TokenResponse "abc")) (inr tt) b
          Ev.AuthContext.initial).2).2 !! "Authorization" = Some "Bearer abc".
Proof.
  intros b.
  apply (session_requests_follow_the_store unit unit "abc" tt b
           Nissan.AuthContext.initial Ev.AuthContext.initial
           "GET" "/vehicles" None false (inr tt)
           (mkConfig "GET" "/vehicles" None false)
           (AxiosError (Some 401) None "Unauthorized")).
  - discriminate.
  - reflexivity.
Defined.

(** X6.  A request with a [FormData] body leaves the EV client without a
    Content-Type header, also when the call asked for one, as the battery
    data upload and the login do; every other EV request, and every
    Nissan request, keeps the header of the call or the JSON default. *)
Theorem form_data_content_type
    (A : Type) (reply : promise A) (b : browser)
    (m url vehicleId : string) (ct : option string) :
  let sent_ev cfg := headers (api cfg reply b).2 !! "Content-Type" in
  let sent_nissan cfg := headers (apiClient cfg reply b).2 !! "Content-Type" in
  sent_ev (uploadBatteryData_config vehicleId) = None ∧
  sent_ev (mkConfig m url ct true) = None ∧
  sent_ev (mkConfig m url ct false) = Some (default "application/json" ct) ∧
  sent_nissan uploadFile_config = Some "multipart/form-data" ∧
  (∀ form, sent_nissan (mkConfig m url ct form)
           = Some (default "application/json" ct)).
Proof.
  intros sent_ev sent_nissan. subst sent_ev sent_nissan. cbv beta.
  assert (Hn : ∀ cfg, (apiClient cfg reply b).2 = nissan_request_interceptor b cfg)
    by (intros; unfold apiClient, round_trip; by destruct reply).
  assert (He : ∀ cfg, (api cfg reply b).2 = ev_request_interceptor b cfg)
    by (intros; unfold api, round_trip; by destruct reply).
  rewrite !He, Hn.
  unfold ev_request_interceptor, nissan_request_interceptor, uploadFile_config,
    uploadBatteryData_config.
  repeat split.
  - destruct (Js.truthy _); simpl; apply lookup_delete_eq.
  - destruct (Js.truthy _); simpl; apply lookup_delete_eq.
  - destruct (Js.truthy _), ct; simpl;
      rewrite ?lookup_insert_ne by done; by rewrite ?lookup_insert_eq.
  - destruct (Js.truthy _); simpl;
      rewrite ?lookup_insert_ne by done; by rewrite ?lookup_insert_eq.
  - intros form. rewrite Hn. unfold nissan_request_interceptor.
    destruct (Js.truthy _), ct; simpl;
      rewrite ?lookup_insert_ne by done; by rewrite ?lookup_insert_eq.
Qed.

(** ** Scores, states of health and the status columns *)

Lemma d0_6_lt_d0_8 : (ModelsTable.d0_6 < ModelsTable.d0_8)%Q.
Proof. reflexivity. Qed.

(** X7.  The Status column is consistent: the colour and the text of a
    model always name the same class (orange for Not Trained, green for
    Excellent, blue for Good, red for Poor). *)
Theorem status_colour_matches_text (model : ModelsTable.model) :
  (ModelsTable.getStatusColor model = "orange"
     ↔ ModelsTable.getStatusText model = "Not Trained") ∧
  (ModelsTable.getStatusColor model = "green"
     ↔ ModelsTable.getStatusText model = "Excellent") ∧
  (ModelsTable.getStatusColor model = "blue"
     ↔ ModelsTable.getStatusText model = "Good") ∧
  (ModelsTable.getStatusColor model = "red"
     ↔ ModelsTable.getStatusText model = "Poor").
Proof.
  unfold ModelsTable.getStatusColor, ModelsTable.getStatusText.
  destruct (ModelsTable.is_trained model); simpl;
    [destruct (Js.gt _ ModelsTable.d0_8);
       [| destruct (Js.gt _ ModelsTable.d0_6)] |];
    repeat split; intros H; first [reflexivity | discriminate H].
Qed.

(** X8.  The progress ring of the Performance column compares the score
    with 80 and 60 although scores are fractions: for a trained model
    whose score is at most 1 the ring, when drawn, is red, also when the
    Status column calls the model Excellent. *)
Theorem performance_ring_is_red_for_fractions
    (record : ModelsTable.model) (score : Q)
    (Htrained : ModelsTable.is_trained record = true)
    (Hscore : ModelsTable.test_score record = Some score)
    (Hpos : (0 < score)%Q) (Hle : (score <= 1)%Q) :
  ModelsTable.strokeColor record = Some "#f5222d" ∧
  ((ModelsTable.d0_8 < score)%Q →
     ModelsTable.getStatusText record = "Excellent" ∧
     ModelsTable.getStatusColor record = "green").
Proof.
  unfold ModelsTable.strokeColor, ModelsTable.getStatusText,
    ModelsTable.getStatusColor, ModelsTable.truthy_number.
  rewrite Htrained, Hscore. simpl.
  assert (Hnz : Qeq_bool score 0 = false).
  { destruct (Qeq_bool score 0) eqn:E; [| done].
    apply Qeq_bool_iff in E. rewrite E in Hpos. by apply Qlt_irrefl in Hpos. }
  rewrite Hnz. simpl.
  assert (H80 : Js.gt score 80 = false).
  { apply not_true_is_false. unfold Js.gt. rewrite Js_lt_spec. intros H.
    apply (Qlt_irrefl 1). eapply Qlt_le_trans; [| exact Hle].
    eapply Qlt_trans; [| exact H]. reflexivity. }
  assert (H60 : Js.gt score 60 = false).
  { apply not_true_is_false. unfold Js.gt. rewrite Js_lt_spec. intros H.
    apply (Qlt_irrefl 1). eapply Qlt_le_trans; [| exact Hle].
    eapply Qlt_trans; [| exact H]. reflexivity. }
  rewrite H80, H60. split; [reflexivity |].
  intros Hhigh. apply Js_lt_spec in Hhigh. unfold Js.gt. by rewrite Hhigh.
Qed.

Lemma performance_ring_is_red_for_fractions_witness :
  let record := ModelsTable.Model 1 true (Some (95 # 100)) in
  ModelsTable.strokeColor record = Some "#f5222d" ∧
  ModelsTable.getStatusText record = "Excellent".
Proof.
  intros record.
  destruct (performance_ring_is_red_for_fractions record (95 # 100)
              eq_refl eq_refl eq_refl) as [Hring Hstatus].
  - discriminate.
  - split; [exact Hring |]. apply Hstatus. reflexivity.
Defined.

Lemma Js_lt_ge_complement (q bound : Q) :
  Js.lt q bound = negb (VehicleDetail.ge q bound).
Proof. unfold VehicleDetail.ge, Js.lt, Js.le. apply Z.ltb_antisym. Qed.

(** X9.  On the vehicle page every reading is counted once, as healthy
    ([>= 80]) or as a warning ([< 80]), and the warnings are the readings
    whose SOH tag is red.  The dashboard draws the line elsewhere
    ([> 80]): the two pages differ exactly by the readings whose state of
    health is 80, healthy on the vehicle page and warnings on the
    dashboard. *)
Theorem vehicle_page_and_dashboard_counts (l : list Dashboard.reading) :
  let at_80 :=
    length (List.filter
              (fun d => Qeq_bool (Js.toNumber (Dashboard.state_of_health d)) 80) l) in
  let red :=
    length (List.filter
              (fun d => String.eqb
                          (VehicleDetail.sohTag (Dashboard.state_of_health d)) "red") l) in
  (VehicleDetail.healthyReadings l + VehicleDetail.warningReadings l = length l)%nat ∧
  VehicleDetail.warningReadings l = red ∧
  (VehicleDetail.healthyReadings l = Dashboard.healthyReadings l + at_80)%nat ∧
  (Dashboard.warningReadings l = VehicleDetail.warningReadings l + at_80)%nat.
Proof.
  unfold VehicleDetail.healthyReadings, VehicleDetail.warningReadings,
    Dashboard.healthyReadings, Dashboard.warningReadings.
  cbv zeta.
  induction l as [|d l (IH1 & IH2 & IH3 & IH4)]; [done |].
  cbn [List.filter].
  set (q := Js.toNumber (Dashboard.state_of_health d)) in *.
  assert (Hlt : Js.lt q 80 = negb (VehicleDetail.ge q 80))
    by apply Js_lt_ge_complement.
  assert (Hgt : Js.gt q 80 = negb (Js.le q 80)) by apply Js_gt_le_complement.
  assert (Heq : Qeq_bool q 80 = VehicleDetail.ge q 80 && Js.le q 80).
  { unfold VehicleDetail.ge, Js.le, Qeq_bool.
    generalize (Qnum q * QDen 80) (Qnum 80 * QDen q). intros x y.
    destruct (Z.leb_spec y x), (Z.leb_spec x y), (Z.eqb_spec x y);
      simpl; try reflexivity; lia. }
  assert (Hred : String.eqb (VehicleDetail.sohTag (Dashboard.state_of_health d)) "red"
                 = negb (VehicleDetail.ge q 80)).
  { unfold VehicleDetail.sohTag. fold q.
    destruct (VehicleDetail.ge q 90) eqn:H90.
    - assert (VehicleDetail.ge q 80 = true) as ->; [| reflexivity].
      unfold VehicleDetail.ge in *. apply Js_le_spec. apply Js_le_spec in H90.
      eapply Qle_trans; [| exact H90]. discriminate.
    - by destruct (VehicleDetail.ge q 80). }
  rewrite Hlt, Hgt, Heq, Hred.
  assert (Htotal : VehicleDetail.ge q 80 || Js.le q 80 = true).
  { unfold VehicleDetail.ge, Js.le.
    generalize (Qnum q * QDen 80) (Qnum 80 * QDen q). intros x y.
    destruct (Z.leb_spec y x), (Z.leb_spec x y); simpl; try reflexivity; lia. }
  clear Hlt Hgt Heq Hred. clearbody q.
  destruct (VehicleDetail.ge q 80), (Js.le q 80); simpl in *;
    try discriminate Htotal; repeat split; lia.
Qed.

(** ** Loading the EV dashboard *)

Lemma insert_Permutation d l : DashboardLoad.insert d l ≡ₚ d :: l.
Proof.
  induction l as [|d' l IH]; simpl; [done |].
  destruct (_ <=? _); [done |].
  rewrite IH. apply Permutation_swap.
Qed.

Lemma sort_Permutation l : DashboardLoad.sort l ≡ₚ l.
Proof.
  induction l as [|d l IH]; simpl; [done |].
  by rewrite insert_Permutation, IH.
Qed.

Lemma insert_sorted d l :
  StronglySorted not_later l → StronglySorted not_later (DashboardLoad.insert d l).
Proof.
  induction 1 as [|d' l Hl IH Hd']; simpl.
  - repeat constructor.
  - destruct (Z.leb_spec (Dashboard.measurement_timestamp d')
                (Dashboard.measurement_timestamp d)) as [Hle | Hgt].
    + constructor; [by constructor |].
      constructor; [exact Hle |].
      eapply Forall_impl; [exact Hd' |]. unfold not_later. intros x Hx. lia.
    + constructor; [exact IH |].
      rewrite insert_Permutation. constructor; [| exact Hd'].
      unfold not_later. lia.
Qed.

Lemma sort_sorted l : StronglySorted not_later (DashboardLoad.sort l).
Proof.
  induction l as [|d l IH]; simpl; [constructor | by apply insert_sorted].
Qed.

(** X10.  When the vehicles and the models load, the dashboard shows at
    most 20 recent readings, the latest first; together with the readings
    it leaves out they are exactly what the limit-10 requests brought in,
    and none that is left out is later than one that is shown.  The count
    of trained models never exceeds the count of models, and a request
    for a vehicle's readings that fails does not stop the loading. *)
Theorem dashboard_shows_latest_readings
    (getBatteryData : Z -> Z -> promise (list Dashboard.reading))
    (vehicles : list Z) (models : list DashboardLoad.ml_model)
    (s : DashboardLoad.state) :
  let s' := DashboardLoad.loadDashboardData getBatteryData
              (inr vehicles) (inr models) s in
  let shown := DashboardLoad.recentData s' in
  (length shown = min 20 (length (DashboardLoad.fetched getBatteryData vehicles)))%nat ∧
  StronglySorted not_later shown ∧
  (∃ rest, (shown ++ rest)%list ≡ₚ DashboardLoad.fetched getBatteryData vehicles ∧
           ∀ d r, d ∈ shown → r ∈ rest → not_later d r) ∧
  (DashboardLoad.predictions (DashboardLoad.dashboard_stats s')
     ≤ DashboardLoad.models (DashboardLoad.dashboard_stats s'))%nat ∧
  DashboardLoad.vehicles (DashboardLoad.dashboard_stats s') = length vehicles ∧
  DashboardLoad.loading s' = false.
Proof.
  intros s' shown. subst shown s'.
  unfold DashboardLoad.loadDashboardData, DashboardLoad.fetched.
  destruct (foldl _ _ vehicles) as [batteryData total]. cbn -[Nat.min take].
  pose proof (sort_sorted batteryData) as Hsorted.
  pose proof (sort_Permutation batteryData) as Hperm.
  rewrite <- (take_drop 20 (DashboardLoad.sort batteryData)) in Hsorted, Hperm.
  apply StronglySorted_app in Hsorted as (Hcross & Hshown & _).
  split.
  { by rewrite length_take, (Permutation_length (sort_Permutation batteryData)). }
  split; [exact Hshown |].
  split; [exists (drop 20 (DashboardLoad.sort batteryData)); by split |].
  split; [| done].
  induction models as [|m ms IH]; simpl; [lia |].
  destruct (DashboardLoad.is_trained m); simpl; lia.
Qed.

(** ** The predictions page *)

(** X11.  Whatever the user does on the predictions page and whatever the
    backend answers, a forecast is on display exactly when metrics are,
    and the models offered for selection are all trained. *)
Theorem forecast_and_metrics_come_together
    (Forecast Metrics : Type)
    (actions : list (Predictions.action (Forecast := Forecast) (Metrics := Metrics))) :
  let s := foldl Predictions.perform Predictions.initial actions in
  (Predictions.forecast s = None ↔ Predictions.metrics s = None) ∧
  Forall (fun m => DashboardLoad.is_trained m = true) (Predictions.models s).
Proof.
  intros s. subst s.
  assert (H0 : (Predictions.forecast (Forecast := Forecast) (Metrics := Metrics)
                  Predictions.initial = None
                ↔ Predictions.metrics (Forecast := Forecast) (Metrics := Metrics)
                    Predictions.initial = None) ∧
               Forall (fun m => DashboardLoad.is_trained m = true)
                 (Predictions.models (Forecast := Forecast) (Metrics := Metrics)
                    Predictions.initial)) by (split; [done | constructor]).
  generalize dependent (Predictions.initial (Forecast := Forecast) (Metrics := Metrics)).
  induction actions as [|a actions IH]; intros s Hs; simpl; [exact Hs |].
  apply IH. destruct Hs as [Hboth Htrained].
  destruct a as [reply | id | f m]; simpl.
  - destruct reply as [err | data]; simpl; [by split |].
    split; [done |]. apply Forall_forall. intros x Hx.
    apply list_elem_of_In, filter_In in Hx. tauto.
  - by split.
  - unfold Predictions.generateForecast.
    destruct (Predictions.selectedModel s); [| by split].
    destruct f as [ef | f]; [by split |].
    destruct m as [em | m]; [by split |]. simpl. by split.
Qed.

(** ** Resetting the training form *)

Lemma nt_exec_reads_only_the_log getModelById cb s s' k :
  ModelTraining.network s = ModelTraining.network s' →
  (ModelTraining.exec getModelById cb (s, k)).2
    = (ModelTraining.exec getModelById cb (s', k)).2 ∧
  ModelTraining.network (ModelTraining.exec getModelById cb (s, k)).1
    = ModelTraining.network (ModelTraining.exec getModelById cb (s', k)).1.
Proof.
  intros Hnet. destruct cb as [h id]. unfold ModelTraining.exec.
  unfold ModelTraining.poll_times. rewrite Hnet.
  destruct (getModelById _) as [err | m]; simpl; [by rewrite Hnet |].
  destruct (String.eqb (training_status m) "completed"),
    (String.eqb (training_status m) "failed"); simpl; by rewrite Hnet.
Qed.

Lemma nt_run_reads_only_the_log getModelById n s s' k :
  ModelTraining.network s = ModelTraining.network s' →
  (run (ModelTraining.exec getModelById) n (s, k)).2
    = (run (ModelTraining.exec getModelById) n (s', k)).2 ∧
  ModelTraining.network (run (ModelTraining.exec getModelById) n (s, k)).1
    = ModelTraining.network (run (ModelTraining.exec getModelById) n (s', k)).1.
Proof.
  revert s s' k. induction n as [|n IH]; intros s s' k Hnet; [done |].
  rewrite !run_S. unfold step. cbn [fst snd].
  destruct (fire k) as [[t k'] |]; [| done].
  destruct (nt_exec_reads_only_the_log getModelById (callback t) s s' k' Hnet)
    as [Hk Hn].
  destruct (ModelTraining.exec getModelById (callback t) (s, k')) as [s1 k1].
  destruct (ModelTraining.exec getModelById (callback t) (s', k')) as [s2 k2].
  simpl in Hk, Hn. subst k2. by apply IH.
Qed.

(** X12.  Resetting the training form does not stop the polling: from any
    state of the page, the timers that are armed and the status requests
    that go out afterwards are the same with and without the reset.  In
    particular, when training was started and the form reset, the first
    poll that answers "completed" puts the result back, calls
    [onModelTrained] and only then clears the interval, while the form is
    still on its first step. *)
Theorem reset_does_not_stop_polling
    (getModelById : nat -> promise model_info) (n : nat)
    (w : ModelTraining.state * clock ModelTraining.callback)
    (t0 : Z) (index target : string) (result m : model_info)
    (Hindex : index ≠ EmptyString) (Htarget : target ≠ EmptyString)
    (Hreply : getModelById 0%nat = inr m)
    (Hdone : training_status m = "completed") :
  let reset w := (TrainingForm.handleReset w.1, w.2) in
  (run (ModelTraining.exec getModelById) n (reset w)).2
    = (run (ModelTraining.exec getModelById) n w).2 ∧
  ModelTraining.poll_times (run (ModelTraining.exec getModelById) n (reset w)).1
    = ModelTraining.poll_times (run (ModelTraining.exec getModelById) n w).1 ∧
  let after :=
    run (ModelTraining.exec getModelById) 1
      (reset (nt_started t0 index target result)) in
  ModelTraining.trainingResult after.1 = Some m ∧
  ModelTraining.trained after.1 = [m] ∧
  ModelTraining.activeStep after.1 = 0%nat ∧
  pending after.2 = [].
Proof.
  intros reset. subst reset. cbv beta.
  destruct w as [s k]. cbn [fst snd].
  destruct (nt_run_reads_only_the_log getModelById n
              (TrainingForm.handleReset s) s k eq_refl) as [Hk Hn].
  split; [exact Hk |].
  split; [unfold ModelTraining.poll_times; by rewrite Hn |].
  unfold nt_started, ModelTraining.handleTrainModel. simpl.
  destruct index as [|c index]; [done |].
  destruct target as [|c' target]; [done |]. simpl.
  rewrite Hreply. simpl. rewrite Hdone. simpl. done.
Qed.

Lemma reset_does_not_stop_polling_witness :
  let answer := fun _ : nat => inr (ModelInfo 4 "completed") : promise model_info in
  let started := nt_started 0 "day" "soh" (ModelInfo 4 "pending") in
  ModelTraining.trainingResult
    (run (ModelTraining.exec answer) 1
       (TrainingForm.handleReset started.1, started.2)).1
  = Some (ModelInfo 4 "completed").
Proof.
  intros answer started.
  destruct (reset_does_not_stop_polling answer 0 started 0 "day" "soh"
              (ModelInfo 4 "pending") (ModelInfo 4 "completed"))
    as (_ & _ & Hresult & _).
  - discriminate.
  - discriminate.
  - reflexivity.
  - reflexivity.
  - exact Hresult.
Defined.

(** ** The progress bar of the file upload *)

Lemma run_idle {C Page} (exec : C -> Page * clock C -> Page * clock C) n s k :
  pending k = [] → run exec n (s, k) = (s, k).
Proof.
  intros Hp. destruct n; [done |].
  rewrite run_S. unfold step, fire. simpl. by rewrite Hp.
Qed.

Lemma fire_single {C} (t : timer C) (now0 : Z) (next : nat) :
  fire {| now := now0; next_handle := next; pending := [t] |} =
  Some (t, {| now := due t; next_handle := next;
              pending := match rearm t with Some t' => [t'] | None => [] end |}).
Proof.
  unfold fire, after_firing. simpl.
  rewrite decide_True by done. by destruct (rearm t).
Qed.

Lemma upload_tick h s k :
  FileUpload.exec (FileUpload.ProgressTick h) (s, k) =
  if 90 <=? FileUpload.uploadProgress s
  then (FileUpload.setUploadProgress 90 s, clearInterval h k)
  else (FileUpload.setUploadProgress (FileUpload.uploadProgress s + 10) s, k).
Proof. done. Qed.

(** While only the progress interval is armed and the bar stands at
    [10 i], [n] ticks move it to [10 min(i + n, 9)]; the tick that finds
    the bar at 90 clears the interval.  Nothing else of the state moves. *)
Lemma upload_ticks n : ∀ i s k d h,
  pending k = [Timer h d (Some 300) (FileUpload.ProgressTick h)] →
  FileUpload.uploadProgress s = 10 * Z.of_nat i → (i ≤ 9)%nat →
  let w := run FileUpload.exec n (s, k) in
  FileUpload.uploadProgress w.1 = 10 * Z.of_nat (min (i + n) 9) ∧
  pending w.2 =
    (if decide (i + n ≤ 9)%nat
     then [Timer h (d + 300 * Z.of_nat n) (Some 300) (FileUpload.ProgressTick h)]
     else []) ∧
  next_handle w.2 = next_handle k ∧
  FileUpload.uploading w.1 = FileUpload.uploading s ∧
  FileUpload.error w.1 = FileUpload.error s ∧
  FileUpload.success w.1 = FileUpload.success s ∧
  FileUpload.uploaded w.1 = FileUpload.uploaded s ∧
  FileUpload.network w.1 = FileUpload.network s.
Proof.
  induction n as [|n IH]; intros i s k d h Hp Hprog Hi w; subst w.
  - cbn [run fst snd]. rewrite Nat.add_0_r, Nat.min_l by done.
    rewrite decide_True by lia. rewrite Hp.
    replace (d + 300 * Z.of_nat 0) with d by lia. done.
  - rewrite run_S. unfold step. destruct k as [now0 next pend].
    simpl in Hp. subst pend. cbn [fst snd]. rewrite fire_single.
    cbn [rearm period callback handle due]. rewrite upload_tick, Hprog.
    destruct (Z.leb_spec 90 (10 * Z.of_nat i)) as [Hfull | Hroom].
    + assert (i = 9)%nat as -> by lia.
      unfold clearInterval. cbn [pending now next_handle].
      rewrite filter_cons_False by (cbn; intros Hne; by apply Hne).
      rewrite filter_nil, run_idle by done. cbn [fst snd].
      rewrite Nat.min_r by lia. rewrite decide_False by lia.
      repeat split; done.
    + destruct (IH (S i) (FileUpload.setUploadProgress (10 * Z.of_nat i + 10) s)
                  {| now := d; next_handle := next;
                     pending := [Timer h (d + 300) (Some 300)
                                   (FileUpload.ProgressTick h)] |}
                  (d + 300) h eq_refl)
        as (H1 & H2 & H3 & H4 & H5 & H6 & H7 & H8).
      { cbn. lia. }
      { lia. }
      replace (i + S n)%nat with (S i + n)%nat by lia.
      rewrite H1, H2. repeat split; try done.
      destruct (decide (S i + n ≤ 9)%nat); [| done].
      by replace (d + 300 + 300 * Z.of_nat n) with (d + 300 * Z.of_nat (S n)) by lia.
Qed.

Lemma upload_started name t0 :
  FileUpload.endsWith name ".csv" = true →
  FileUpload.onDrop_start [name] (FileUpload.initial, fresh_clock t0) =
  (Some 1%nat,
   (FileUpload.State true 0 None false 0 [name],
    {| now := t0; next_handle := 2;
       pending := [Timer 1 (t0 + 300) (Some 300) (FileUpload.ProgressTick 1)] |})).
Proof. intros H. unfold FileUpload.onDrop_start. by rewrite H. Qed.

(** X13.  While a CSV upload is in flight the progress bar stands at
    [min(10 n, 90)] after [n] ticks of 300 ms and never beyond 90.  When
    the upload is rejected the interval is not cleared: the page is no
    longer uploading and shows the error, but the bar keeps advancing to
    90 as if the upload went on. *)
Theorem upload_progress_runs_on_after_failure
    (U : Type) (name : string) (t0 : Z) (j n : nat) (err : axios_error)
    (Hcsv : FileUpload.endsWith name ".csv" = true) :
  let started := (FileUpload.onDrop_start [name]
                    (FileUpload.initial, fresh_clock t0)).2 in
  let in_flight := run FileUpload.exec n started in
  let failed :=
    FileUpload.onDrop_finish (U := U) 1 (inl err) (run FileUpload.exec j started) in
  (FileUpload.uploadProgress in_flight.1 = Z.min (10 * Z.of_nat n) 90 ∧
   FileUpload.uploading in_flight.1 = true) ∧
  (FileUpload.uploading failed.1 = false ∧
   FileUpload.error failed.1 = Some (detail_or err "Error al subir archivo") ∧
   ((j ≤ 9)%nat → polling 1 failed.2 = true) ∧
   FileUpload.uploadProgress (run FileUpload.exec n failed).1
     = Z.min (10 * Z.of_nat (j + n)) 90).
Proof.
  intros started in_flight failed. subst in_flight failed started.
  rewrite (upload_started name t0 Hcsv). cbn [snd].
  set (s0 := FileUpload.State true 0 None false 0 [name]).
  set (k0 := {| now := t0; next_handle := 2%nat;
                pending := [Timer 1 (t0 + 300) (Some 300)
                              (FileUpload.ProgressTick 1)] |}).
  pose proof (upload_ticks n 0 s0 k0 (t0 + 300) 1 eq_refl eq_refl) as Hn.
  pose proof (upload_ticks j 0 s0 k0 (t0 + 300) 1 eq_refl eq_refl) as Hj.
  cbv zeta in Hn, Hj.
  destruct Hn as (Hn1 & _ & _ & Hn4 & _); [lia |].
  destruct Hj as (Hj1 & Hj2 & _ & _ & _); [lia |].
  split.
  { rewrite Hn1, Hn4. split; [| done]. simpl (0 + n)%nat. lia. }
  destruct (run FileUpload.exec j (s0, k0)) as [sj kj]. cbn [fst snd] in *.
  unfold FileUpload.onDrop_finish. cbn [fst snd].
  split; [done |]. split; [done |]. split.
  { intros Hle. unfold polling. rewrite Hj2, decide_True by lia. done. }
  destruct (decide (0 + j ≤ 9)%nat) as [Hle | Hgt].
  - pose proof (upload_ticks n j
                  (FileUpload.setUploading false
                     (FileUpload.setError
                        (Some (detail_or err "Error al subir archivo")) sj))
                  kj _ 1 Hj2) as Hrest.
    cbv zeta in Hrest. destruct Hrest as (-> & _); [| lia | lia].
    cbn. rewrite Hj1. f_equal. lia.
  - rewrite run_idle by done. cbn. rewrite Hj1. lia.
Qed.

Lemma upload_progress_runs_on_after_failure_witness :
  let started := (FileUpload.onDrop_start ["data.csv"]
                    (FileUpload.initial, fresh_clock 0)).2 in
  let failed :=
    FileUpload.onDrop_finish (U := unit) 1
      (inl (AxiosError (Some 500) None "Internal Server Error"))
      (run FileUpload.exec 2 started) in
  FileUpload.uploadProgress (run FileUpload.exec 4 failed).1 = 60.
Proof.
  intros started failed.
  apply (upload_progress_runs_on_after_failure unit "data.csv" 0 2 4
           (AxiosError (Some 500) None "Internal Server Error")).
  reflexivity.
Defined.

(** X14.  When a CSV upload succeeds, whenever the answer arrives: the
    progress interval is cancelled, the bar stands at 100, the success
    message shows, the parent is notified once and one request was sent.
    The only timer left is the reset, which 3000 ms after the answer puts
    the bar back to 0 and hides the message; after it no timer remains. *)
Theorem upload_success_lifecycle
    (U : Type) (name : string) (t0 : Z) (j n : nat) (uploadedFile : U)
    (Hcsv : FileUpload.endsWith name ".csv" = true) :
  let started := (FileUpload.onDrop_start [name]
                    (FileUpload.initial, fresh_clock t0)).2 in
  let answered :=
    FileUpload.onDrop_finish 1 (inr uploadedFile)
      (run FileUpload.exec j started) in
  let later := run FileUpload.exec (S n) answered in
  (FileUpload.uploadProgress answered.1 = 100 ∧
   FileUpload.success answered.1 = true ∧
   FileUpload.uploading answered.1 = false ∧
   FileUpload.error answered.1 = None ∧
   FileUpload.uploaded answered.1 = 1%nat ∧
   FileUpload.network answered.1 = [name] ∧
   polling 1 answered.2 = false) ∧
  (FileUpload.uploadProgress later.1 = 0 ∧
   FileUpload.success later.1 = false ∧
   now later.2 = now answered.2 + 3000 ∧
   pending later.2 = []).
Proof.
  intros started answered later. subst later answered started.
  rewrite (upload_started name t0 Hcsv). cbn [snd].
  set (s0 := FileUpload.State true 0 None false 0 [name]).
  set (k0 := {| now := t0; next_handle := 2%nat;
                pending := [Timer 1 (t0 + 300) (Some 300)
                              (FileUpload.ProgressTick 1)] |}).
  pose proof (upload_ticks j 0 s0 k0 (t0 + 300) 1 eq_refl eq_refl) as Hj.
  cbv zeta in Hj.
  destruct Hj as (_ & Hpend & Hnext & _ & Herr & _ & Hup & Hnet); [lia |].
  destruct (run FileUpload.exec j (s0, k0)) as [sj kj]. cbn [fst snd] in *.
  assert (pending (clearInterval 1 kj) = []) as Hclear.
  { unfold clearInterval. cbn [pending]. rewrite Hpend.
    destruct (decide (0 + j ≤ 9)%nat); [| done].
    by rewrite filter_cons_False by (cbn; intros Hne; by apply Hne). }
  unfold FileUpload.onDrop_finish, setTimeout. rewrite Hclear.
  cbn [fst snd app]. split.
  { cbn. rewrite Herr, Hup, Hnet, Hnext. done. }
  rewrite run_S. unfold step. cbn [fst snd]. rewrite fire_single.
  cbn [rearm period callback handle due]. cbn [FileUpload.exec].
  rewrite run_idle by done. done.
Qed.

Lemma upload_success_lifecycle_witness :
  let started := (FileUpload.onDrop_start ["data.csv"]
                    (FileUpload.initial, fresh_clock 0)).2 in
  let answered :=
    FileUpload.onDrop_finish 1 (inr tt) (run FileUpload.exec 3 started) in
  FileUpload.uploadProgress answered.1 = 100 ∧
  FileUpload.uploadProgress (run FileUpload.exec 1 answered).1 = 0.
Proof.
  intros started answered.
  destruct (upload_success_lifecycle unit "data.csv" 0 3 0 tt eq_refl)
    as ((H100 & _) & (H0 & _)).
  split; [exact H100 | exact H0].
Defined.

(** ** The delete dialogs *)

Lemma files_dialog_inv_mono s0 actions a s :
  files_dialog_inv s0 actions s →
  files_dialog_inv s0 (actions ++ [a]) s.
Proof.
  intros (Hopen & Hdel & Htarget & Hsub & Hsent & Hgone).
  unfold files_dialog_inv; split_and!; try done.
  - intros f Hf. apply elem_of_app. left. by apply Htarget.
  - intros r Hr. destruct (Hsent r Hr) as [? | (f & ? & ?)]; [by left |].
    right. exists f. split; [| done]. apply elem_of_app. by left.
Qed.

Lemma files_dialog_inv_step onRefreshNeeded s0 actions a s :
  files_dialog_inv s0 actions s →
  files_dialog_inv s0 (actions ++ [a]) (FilesListPage.perform onRefreshNeeded s a).
Proof.
  intros Hinv.
  pose proof (files_dialog_inv_mono s0 actions a s Hinv)
    as (Hopen & Hdel & Htarget & Hsub & Hsent & Hgone).
  assert (∀ s' target,
            FilesList.fileToDelete s = Some target →
            FilesList.files s' `sublist_of` FilesList.files s →
            (∀ x, FilesList.file_id x ≠ FilesList.file_id target →
                  x ∈ FilesList.files s → x ∈ FilesList.files s') →
            FilesList.network s' =
              FilesList.DeleteFile (FilesList.file_id target)
                :: FilesList.network s →
            files_dialog_inv s0 (actions ++ [a])
              (FilesList.handleCloseDialog (FilesList.setDeleting false s')))
    as Hconfirmed.
  { intros s' target Htg Hfiles Hmissing Hnet.
    specialize (Htarget target Htg).
    unfold files_dialog_inv; split_and!; cbn.
    - split; [done | by intros [? ?]].
    - done.
    - done.
    - by etrans.
    - rewrite Hnet. intros r [-> | Hr]%elem_of_cons; [| by apply Hsent].
      right. by exists target.
    - rewrite Hnet. intros x Hx Hnot. apply elem_of_cons.
      destruct (decide (FilesList.file_id x = FilesList.file_id target))
        as [-> | Hne]; [by left |].
      right. apply Hgone; [done |]. intros Hin. by apply Hnot, Hmissing. }
  destruct a as [f | | reply]; cbn [FilesListPage.perform].
  - unfold files_dialog_inv; split_and!; cbn; try done.
    intros ? [= <-]. apply elem_of_app. right. by apply list_elem_of_singleton.
  - unfold files_dialog_inv; split_and!; cbn; try done.
  - unfold FilesList.handleDeleteConfirm.
    destruct (FilesList.fileToDelete s) as [target |] eqn:Htg.
    2: { unfold files_dialog_inv; split_and!; rewrite ?Htg; done. }
    destruct reply as [err | []].
    + apply (Hconfirmed _ target); [done | done | done | done].
    + destruct onRefreshNeeded;
        (apply (Hconfirmed _ target);
         [done | apply sublist_filter
          | by intros x Hne Hx; apply list_elem_of_filter | done]).
Qed.

Lemma files_dialog_inv_run onRefreshNeeded s0 actions :
  FilesList.deleteDialogOpen s0 = false →
  FilesList.fileToDelete s0 = None →
  FilesList.deleting s0 = false →
  files_dialog_inv s0 actions (foldl (FilesListPage.perform onRefreshNeeded) s0 actions).
Proof.
  intros Hclosed Hnone Hidle.
  induction actions as [|a actions IH] using rev_ind.
  - unfold files_dialog_inv; split_and!; cbn; try done.
    + rewrite Hclosed, Hnone. split; [done | by intros [? ?]].
    + by rewrite Hnone.
    + intros r Hr. by left.
  - rewrite foldl_app. cbn [foldl]. by apply files_dialog_inv_step.
Qed.

Lemma models_dialog_inv_mono s0 actions a s :
  models_dialog_inv s0 actions s →
  models_dialog_inv s0 (actions ++ [a]) s.
Proof.
  intros (Hopen & Hdel & Htarget & Hsub & Hsent & Hgone).
  unfold models_dialog_inv; split_and!; try done.
  - intros f Hf. apply elem_of_app. left. by apply Htarget.
  - intros r Hr. destruct (Hsent r Hr) as [? | (f & ? & ?)]; [by left |].
    right. exists f. split; [| done]. apply elem_of_app. by left.
Qed.

Lemma models_dialog_inv_step s0 actions a s :
  models_dialog_inv s0 actions s →
  models_dialog_inv s0 (actions ++ [a]) (ModelsListPage.perform s a).
Proof.
  intros Hinv.
  pose proof (models_dialog_inv_mono s0 actions a s Hinv)
    as (Hopen & Hdel & Htarget & Hsub & Hsent & Hgone).
  assert (∀ s' t target,
            ModelsList.modelToDelete s = Some target →
            ModelsList.models s' `sublist_of` ModelsList.models s →
            (∀ x, model_id x ≠ model_id target →
                  x ∈ ModelsList.models s → x ∈ ModelsList.models s') →
            ModelsList.network s' =
              (t, ModelsList.DeleteModel (model_id target))
                :: ModelsList.network s →
            models_dialog_inv s0 (actions ++ [a])
              (ModelsList.handleCloseDialog (ModelsList.setDeleting false s')))
    as Hconfirmed.
  { intros s' t target Htg Hmodels Hmissing Hnet.
    specialize (Htarget target Htg).
    unfold models_dialog_inv; split_and!; cbn.
    - split; [done | by intros [? ?]].
    - done.
    - done.
    - by etrans.
    - rewrite Hnet. intros r [-> | Hr]%elem_of_cons; [| by apply Hsent].
      right. by exists target.
    - rewrite Hnet. intros x Hx Hnot.
      destruct (decide (model_id x = model_id target)) as [-> | Hne].
      + exists t. apply elem_of_cons. by left.
      + destruct (Hgone x Hx) as (t' & Ht').
        { intros Hin. by apply Hnot, Hmissing. }
        exists t'. apply elem_of_cons. by right. }
  destruct a as [f | | t reply]; cbn [ModelsListPage.perform].
  - unfold models_dialog_inv; split_and!; cbn; try done.
    intros ? [= <-]. apply elem_of_app. right. by apply list_elem_of_singleton.
  - unfold models_dialog_inv; split_and!; cbn; try done.
  - unfold ModelsList.handleDeleteConfirm.
    destruct (ModelsList.modelToDelete s) as [target |] eqn:Htg.
    2: { unfold models_dialog_inv; split_and!; rewrite ?Htg; done. }
    destruct reply as [err | []].
    + apply (Hconfirmed _ t target); [done | done | done | done].
    + apply (Hconfirmed _ t target);
        [done | apply sublist_filter
         | by intros x Hne Hx; apply list_elem_of_filter | done].
Qed.

Lemma models_dialog_inv_run s0 actions :
  ModelsList.deleteDialogOpen s0 = false →
  ModelsList.modelToDelete s0 = None →
  ModelsList.deleting s0 = false →
  models_dialog_inv s0 actions (foldl ModelsListPage.perform s0 actions).
Proof.
  intros Hclosed Hnone Hidle.
  induction actions as [|a actions IH] using rev_ind.
  - unfold models_dialog_inv; split_and!; cbn; try done.
    + rewrite Hclosed, Hnone. split; [done | by intros [? ?]].
    + by rewrite Hnone.
    + intros r Hr. by left.
  - rewrite foldl_app. cbn [foldl]. by apply models_dialog_inv_step.
Qed.

(** X15.  Whatever the user does with the delete dialog of the files
    list or of the models list (click a row's delete button, close,
    confirm, in any order and with any answers of the backend), starting
    with the dialog closed: the dialog is open exactly when an entry is
    named in it, no deletion stays in flight, every request sent is a
    DELETE for an entry whose button was clicked, the list shown only
    loses entries, and every entry that is gone had a DELETE sent for its
    id. *)
Theorem delete_dialog_flows
    (onRefreshNeeded : bool)
    (fs0 : FilesList.state) (file_actions : list FilesListPage.action)
    (ms0 : ModelsList.state) (model_actions : list ModelsListPage.action)
    (Hfclosed : FilesList.deleteDialogOpen fs0 = false)
    (Hfnone : FilesList.fileToDelete fs0 = None)
    (Hfidle : FilesList.deleting fs0 = false)
    (Hmclosed : ModelsList.deleteDialogOpen ms0 = false)
    (Hmnone : ModelsList.modelToDelete ms0 = None)
    (Hmidle : ModelsList.deleting ms0 = false) :
  files_dialog_inv fs0 file_actions
    (foldl (FilesListPage.perform onRefreshNeeded) fs0 file_actions) ∧
  models_dialog_inv ms0 model_actions
    (foldl ModelsListPage.perform ms0 model_actions).
Proof.
  split.
  - by apply files_dialog_inv_run.
  - by apply models_dialog_inv_run.
Qed.

Lemma delete_dialog_flows_witness :
  let a := FilesList.File 1 "a.csv" 10 false "2024-01-01" in
  let b := FilesList.File 2 "b.csv" 20 true "2024-01-02" in
  let fs0 := FilesList.State [a; b] false None false None false 0
               [FilesList.GetFiles] in
  let m := ModelInfo 4 "completed" in
  let ms0 := ModelsList.State [m] false None false None false [] in
  let file_actions :=
    [FilesListPage.DeleteClick a; FilesListPage.CloseDialog;
     FilesListPage.DeleteConfirm (inr tt);
     FilesListPage.DeleteClick b; FilesListPage.DeleteConfirm (inr tt)] in
  let model_actions :=
    [ModelsListPage.DeleteClick m; ModelsListPage.DeleteConfirm 9 (inr tt)] in
  files_dialog_inv fs0 file_actions
    (foldl (FilesListPage.perform true) fs0 file_actions) ∧
  models_dialog_inv ms0 model_actions
    (foldl ModelsListPage.perform ms0 model_actions).
Proof.
  intros a b fs0 m ms0 file_actions model_actions.
  apply (delete_dialog_flows true fs0 file_actions ms0 model_actions);
    reflexivity.
Defined.

(** ** The column boxes of the preprocessing form *)

Lemma indexOf_None c l : DataPreprocessing.indexOf c l = None ↔ c ∉ l.
Proof.
  induction l as [|x l IH]; cbn.
  - split; [intros _; apply not_elem_of_nil | done].
  - rewrite not_elem_of_cons. destruct (String.eqb_spec x c) as [-> | Hne].
    + split; [done | by intros [? _]].
    + destruct (DataPreprocessing.indexOf c l); cbn.
      * split; [done |]. intros [_ Hl]. by apply IH in Hl.
      * split; [| done]. intros _. split; [done | by apply IH].
Qed.

Lemma indexOf_Some c l i :
  DataPreprocessing.indexOf c l = Some i →
  ∃ l1 l2, l = (l1 ++ c :: l2)%list ∧ length l1 = i.
Proof.
  revert i. induction l as [|x l IH]; intros i; cbn; [done |].
  destruct (String.eqb_spec x c) as [-> | Hne].
  - intros [= <-]. by exists [], l.
  - destruct (DataPreprocessing.indexOf c l) as [j |]; cbn; [| done].
    intros [= <-]. destruct (IH j eq_refl) as (l1 & l2 & -> & <-).
    by exists (x :: l1), l2.
Qed.

Lemma column_checked_elem_of c s :
  column_checked c s = true ↔ c ∈ DataPreprocessing.selectedColumns s.
Proof.
  unfold column_checked.
  destruct (DataPreprocessing.indexOf c (DataPreprocessing.selectedColumns s))
    eqn:Hi.
  - split; [intros _ | done].
    destruct (indexOf_Some _ _ _ Hi) as (l1 & l2 & -> & _).
    apply elem_of_app. right. by left.
  - apply indexOf_None in Hi. split; [done | by intros ?].
Qed.

Lemma toggle_elements c s :
  NoDup (DataPreprocessing.selectedColumns s) →
  let l' := DataPreprocessing.selectedColumns
              (DataPreprocessing.handleColumnToggle c s) in
  NoDup l' ∧
  (c ∈ l' ↔ c ∉ DataPreprocessing.selectedColumns s) ∧
  (∀ x, x ≠ c → x ∈ l' ↔ x ∈ DataPreprocessing.selectedColumns s).
Proof.
  intros Hnodup l'. subst l'. unfold DataPreprocessing.handleColumnToggle.
  cbn [DataPreprocessing.selectedColumns].
  destruct (DataPreprocessing.indexOf c (DataPreprocessing.selectedColumns s))
    as [i |] eqn:Hi.
  - destruct (indexOf_Some _ _ _ Hi) as (l1 & l2 & Hl & <-).
    rewrite Hl in *. rewrite delete_middle.
    apply NoDup_app in Hnodup as (H1 & H12 & H2).
    apply NoDup_cons in H2 as (Hc2 & H2).
    split_and!.
    + apply NoDup_app. split_and!; [done | | done].
      intros x Hx Hx2. apply (H12 x Hx). by right.
    + split.
      * intros [Hin | Hin]%elem_of_app; [| done].
        exfalso. apply (H12 c Hin). by left.
      * intros Hnot. exfalso. apply Hnot, elem_of_app. right. by left.
    + intros x Hne. rewrite !elem_of_app, elem_of_cons. tauto.
  - apply indexOf_None in Hi. split_and!.
    + apply NoDup_app. split_and!; [done | | apply NoDup_singleton].
      intros x Hx ->%list_elem_of_singleton. done.
    + split; [done |]. intros _. apply elem_of_app. right. by left.
    + intros x Hne. rewrite elem_of_app, list_elem_of_singleton. tauto.
Qed.

(** X16.  In the preprocessing form, whatever the user does (the preview
    arriving, options changed, boxes toggled, all or none selected), the
    [columns_to_process] of the options that [handleProcessData] sends
    are the selected columns; and as long as no option control is used,
    the five cleaning options keep their initial values. *)
Theorem options_follow_selection (actions : list DataPreprocessing.action) :
  let s := foldl DataPreprocessing.perform DataPreprocessing.initial actions in
  let o := DataPreprocessing.form_options s in
  DataPreprocessing.columns_to_process o = DataPreprocessing.selectedColumns s ∧
  ((∀ event, DataPreprocessing.OptionChange event ∉ actions) →
   DataPreprocessing.set_columns [] o =
   DataPreprocessing.form_options DataPreprocessing.initial).
Proof.
  induction actions as [|a actions IH] using rev_ind; [done |].
  cbv zeta in *. rewrite foldl_app. cbn [foldl].
  destruct IH as [Hcols Hopts].
  set (s := foldl DataPreprocessing.perform DataPreprocessing.initial actions) in *.
  split.
  - destruct a as [[cols |] | [[] checked | value] | c | select];
      cbn; try done.
  - intros Hnone.
    assert (DataPreprocessing.set_columns [] (DataPreprocessing.form_options s)
            = DataPreprocessing.form_options DataPreprocessing.initial) as Hs.
    { apply Hopts. intros event Hin. apply (Hnone event), elem_of_app. by left. }
    destruct a as [[cols |] | event | c | select]; cbn; try done.
    exfalso. apply (Hnone event), elem_of_app. right. by left.
Qed.

(** X17.  With no column selected twice, toggling the box of a column
    flips that box and no other, still selects no column twice, and
    toggling it again gives back the same selection (up to order). *)
Theorem column_toggle_flips_one_box
    (c : string) (s : DataPreprocessing.state)
    (Hnodup : NoDup (DataPreprocessing.selectedColumns s)) :
  let s' := DataPreprocessing.handleColumnToggle c s in
  NoDup (DataPreprocessing.selectedColumns s') ∧
  column_checked c s' = negb (column_checked c s) ∧
  (∀ x, x ≠ c → column_checked x s' = column_checked x s) ∧
  DataPreprocessing.selectedColumns (DataPreprocessing.handleColumnToggle c s')
    ≡ₚ DataPreprocessing.selectedColumns s.
Proof.
  intros s'.
  destruct (toggle_elements c s Hnodup) as (Hnodup' & Hc & Hother).
  destruct (toggle_elements c s' Hnodup') as (Hnodup'' & Hc' & Hother').
  fold s' in Hnodup', Hc, Hother, Hc', Hother'.
  assert (∀ x a b, (column_checked x a = true ↔ column_checked x b = true) →
                   column_checked x a = column_checked x b) as Hbool.
  { intros x a b [Hab Hba].
    destruct (column_checked x a), (column_checked x b); try done.
    - symmetry. by apply Hab.
    - by apply Hba. }
  split_and!.
  - done.
  - destruct (column_checked c s) eqn:Hold; cbn.
    + apply not_true_is_false. rewrite column_checked_elem_of, Hc.
      apply column_checked_elem_of in Hold. tauto.
    + apply column_checked_elem_of, Hc. rewrite <- column_checked_elem_of.
      by rewrite Hold.
  - intros x Hne. apply Hbool. rewrite !column_checked_elem_of. by apply Hother.
  - apply NoDup_Permutation; [done | done |].
    intros x. destruct (decide (x = c)) as [-> | Hne].
    + rewrite Hc', Hc. destruct (decide (c ∈ DataPreprocessing.selectedColumns s));
        tauto.
    + by rewrite Hother', Hother.
Qed.

Lemma column_toggle_flips_one_box_witness :
  let s := DataPreprocessing.previewLoaded (Some ["day"; "soh"; "temp"])
             DataPreprocessing.initial in
  column_checked "soh" (DataPreprocessing.handleColumnToggle "soh" s)
    = negb (column_checked "soh" s).
Proof.
  intros s.
  apply (column_toggle_flips_one_box "soh" s).
  by apply (bool_decide_unpack _).
Defined.

(** ** Two trainings on the EV Models page *)

Lemma run_stuck {C Page} (exec : C -> Page * clock C -> Page * clock C) n w :
  step exec w = None → run exec n w = w.
Proof. intros H. destruct n; [done |]. by rewrite run_S, H. Qed.

Lemma run_add {C Page} (exec : C -> Page * clock C -> Page * clock C) n m w :
  run exec (n + m) w = run exec m (run exec n w).
Proof.
  revert w. induction n as [|n IH]; intros w; [done |].
  change (S n + m)%nat with (S (n + m)). rewrite !run_S.
  destruct (step exec w) eqn:Hstep; [apply IH |].
  by rewrite run_stuck.
Qed.

Ltac earliest_cases :=
  repeat case_match; simplify_eq; cbn [due] in *;
  repeat match goal with
         | H : (_ <=? _) = true |- _ => apply Z.leb_le in H
         | H : (_ <=? _) = false |- _ => apply Z.leb_gt in H
         end;
  try lia.

Section EvTwoRuns.
Variable getModel : nat -> promise bool.
Variables (t0 t1 modelA modelB : Z) (vehicle : option Z).
Hypothesis later_unfinished : ∀ i, (1 ≤ i)%nat → getModel i = inr false.
Hypothesis second_after_first : t0 + 5000 ≤ t1 < t0 + 300000.

Local Abbreviation stale_stop :=
  (Timer 2 (t0 + 300000) None (Models.StopPolling 1)).
Local Abbreviation second_poll d :=
  (Timer 3 d (Some 5000) (Models.Poll 3 modelB vehicle)).
Local Abbreviation second_stop :=
  (Timer 4 (t1 + 300000) None (Models.StopPolling 3)).

(** With the timeout of the first run still pending beside the timers of
    the second: the second run polls undisturbed until the timeout of the
    first falls due, which then clears the flag and leaves the second
    interval armed. *)
Lemma stale_timeout_fires fuel : ∀ d s now0,
  t0 + 300000 ≤ d + 5000 * Z.of_nat fuel →
  Models.trainingModel s = Some modelB →
  (1 ≤ length (Models.poll_times s))%nat →
  let w := (s, {| now := now0; next_handle := 5%nat;
                  pending := [stale_stop; second_poll d; second_stop] |}) in
  ∃ n, (∀ m, (m < n)%nat →
          Models.trainingModel (run (Models.exec getModel) m w).1 = Some modelB) ∧
       Models.trainingModel (run (Models.exec getModel) n w).1 = None ∧
       polling 3 (run (Models.exec getModel) n w).2 = true ∧
       now (run (Models.exec getModel) n w).2 = t0 + 300000.
Proof.
  induction fuel as [|fuel IH]; intros d s now0 Hfuel Hflag Hlen w; subst w.
  - exists 1%nat. split.
    { intros m Hm. assert (m = 0)%nat as -> by lia. done. }
    rewrite run_S. unfold step, fire. cbn [fst snd pending earliest due].
    earliest_cases; repeat split; reflexivity.
  - destruct (Z_lt_le_dec d (t0 + 300000)) as [Hearly | Hlate].
    + set (s' := Models.send d (Models.GetModel modelB) s).
      destruct (IH (d + 5000) s' d) as (n & Hbefore & Hafter);
        [lia | done | cbn; lia |].
      assert (run (Models.exec getModel) 1
                (s, {| now := now0; next_handle := 5%nat;
                       pending := [stale_stop; second_poll d; second_stop] |})
              = (s', {| now := d; next_handle := 5%nat;
                        pending := [stale_stop; second_poll (d + 5000);
                                    second_stop] |})) as Hstep.
      { rewrite run_S. unfold step, fire. cbn [fst snd pending earliest due].
        destruct (Z.leb_spec d (t1 + 300000)); [| lia]. cbn [due].
        destruct (Z.leb_spec (t0 + 300000) d); [lia |].
        cbn. rewrite later_unfinished by done. done. }
      exists (S n). split.
      { intros [|m] Hm; [done |].
        change (S m) with (1 + m)%nat. rewrite run_add, Hstep.
        apply Hbefore. lia. }
      change (S n) with (1 + n)%nat. rewrite run_add, Hstep. exact Hafter.
    + exists 1%nat. split.
      { intros m Hm. assert (m = 0)%nat as -> by lia. done. }
      rewrite run_S. unfold step, fire. cbn [fst snd pending earliest due].
      earliest_cases; repeat split; reflexivity.
Qed.

End EvTwoRuns.

(** X18.  On the EV Models page the timeout of a training run is never
    cancelled.  When a first training has completed at its first poll
    and a second one is started before the first timeout is due, the
    second shows as training and polls until, 300 s after the start of
    the first, that stale timeout clears the training flag: the row then
    no longer shows as training although the interval of the second run
    is still armed. *)
Theorem stale_timeout_resets_training_flag
    (getModel : nat -> promise bool) (t0 t1 modelA modelB : Z)
    (vehicle : option Z)
    (Hfirst : getModel 0%nat = inr true)
    (Hrest : ∀ i, (1 ≤ i)%nat → getModel i = inr false)
    (Ht1 : t0 + 5000 ≤ t1 < t0 + 300000) :
  let first_done :=
    run (Models.exec getModel) 1 (ev_started t0 modelA vehicle) in
  let second :=
    Models.handleTrainModel modelB (inr tt)
      (first_done.1, at_time t1 first_done.2) in
  Models.trainingModel first_done.1 = None ∧
  polling 1 first_done.2 = false ∧
  ∃ n,
    (∀ m, (m < n)%nat →
       Models.trainingModel (run (Models.exec getModel) m second).1
         = Some modelB) ∧
    let w := run (Models.exec getModel) n second in
    now w.2 = t0 + 300000 ∧
    Models.trainingModel w.1 = None ∧
    polling 3 w.2 = true.
Proof.
  intros first_done second.
  assert (first_done =
          (Models.State None vehicle
             ["Model training completed!";
              "Training started! Check back in a few moments."]
             [(t0 + 5000, Models.GetModels vehicle);
              (t0 + 5000, Models.GetModel modelA);
              (t0, Models.TrainModel modelA)],
           {| now := t0 + 5000; next_handle := 3%nat;
              pending := [Timer 2 (t0 + 300000) None (Models.StopPolling 1)] |}))
    as Hdone.
  { subst first_done. unfold ev_started, Models.handleTrainModel.
    rewrite run_S. unfold step, fire.
    cbn [fst snd pending earliest due setInterval setTimeout Models.initial
         next_handle now app Models.selectedVehicle Models.send Models.notify
         Models.setTrainingModel].
    assert ((t0 + 5000 <=? t0 + 300000) = true) as Hle by (apply Z.leb_le; lia).
    cbn. rewrite Hle. cbn. rewrite Hfirst. done. }
  subst second. rewrite Hdone. cbn [fst snd].
  split; [done |]. split; [done |].
  destruct (stale_timeout_fires getModel t0 t1 modelB vehicle Hrest Ht1
              (Z.to_nat (t0 + 300000 - t1)) (t1 + 5000)
              (Models.notify "Training started! Check back in a few moments."
                 (Models.send t1 (Models.TrainModel modelB)
                    (Models.setTrainingModel (Some modelB)
                       (Models.State None vehicle
                          ["Model training completed!";
                           "Training started! Check back in a few moments."]
                          [(t0 + 5000, Models.GetModels vehicle);
                           (t0 + 5000, Models.GetModel modelA);
                           (t0, Models.TrainModel modelA)]))))
              t1)
    as (n & Hbefore & Hflag & Hpoll & Hnow); [lia | done | cbn; lia |].
  exists n. split; [exact Hbefore |]. cbv zeta. done.
Qed.

Lemma stale_timeout_resets_training_flag_witness :
  let getModel := fun i : nat => inr (Nat.eqb i 0) : promise bool in
  let first_done :=
    run (Models.exec getModel) 1 (ev_started 0 7 (Some 1)) in
  let second :=
    Models.handleTrainModel 8 (inr tt)
      (first_done.1, at_time 290000 first_done.2) in
  ∃ n, let w := run (Models.exec getModel) n second in
       now w.2 = 300000 ∧ Models.trainingModel w.1 = None ∧
       polling 3 w.2 = true.
Proof.
  intros getModel first_done second.
  destruct (stale_timeout_resets_training_flag getModel 0 290000 7 8 (Some 1))
    as (_ & _ & n & _ & H).
  - reflexivity.
  - intros [|i] Hi; [lia | reflexivity].
  - lia.
  - exists n. exact H.
Defined.
